(** * BSE announcement proxy: a shallow embedding of [api/announcements.py]

    The handler of [api/announcements.py] resolves a date, pages through two
    upstream endpoints and answers with a JSON envelope.  This file embeds the
    functions of that module and proves the properties the specification
    states about them.

    What lies outside the module is an input of the model:
    - the upstream provider, as a function from the history of requests made
      so far to the outcome of the last one (so a provider may answer the
      same request differently each time);
    - the clock read by [datetime.datetime.utcnow()];
    - the request target [self.path], as [urllib.parse.urlparse] takes it: it
      raises, or it gives a query, kept as its fields [name=value];
    - the library functions whose results depend on the version of Python or
      on the platform ([date.fromisoformat], [int], the [%Y] of [strftime]),
      with what every version guarantees of them.

    Writing to the socket is taken to succeed, and so is [json.dumps] on
    what [json.loads] built. *)

From Stdlib Require Import ZArith String Ascii List Lia.
From Stdlib Require Import Floats.PrimFloat.
From stdpp Require Import gmap strings list list_numbers fin_maps.

Set Warnings "-register-all".
Open Scope Z_scope.

(** ** JSON values, as the Python objects [json.loads] builds *)

Inductive json : Type :=
  | JNull
  | JBool (b : bool)
  | JInt (z : Z)
  | JFloat (f : PrimFloat.float)
  | JStr (s : string)
  | JArr (l : list json)
  | JObj (d : gmap string json).

(** A row is a Python [dict] with string keys. *)
Abbreviation row := (gmap string json).

(** Python truth value testing: [None], [False], zero, and empty strings,
    lists and dicts are false. *)
Definition truthy (v : json) : bool :=
  match v with
  | JNull => false
  | JBool b => b
  | JInt z => negb (z =? 0)
  | JFloat f => negb (PrimFloat.eqb f 0%float)
  | JStr s => negb (String.eqb s "")
  | JArr l => match l with [] => false | _ :: _ => true end
  | JObj d => negb (bool_decide (d = ∅))
  end.

(** [a or b]: the first operand when it is true, else the second. *)
Definition py_or (a b : json) : json := if truthy a then a else b.

(** [d.get(k)] on a dict: the value, or [None] when the key is missing. *)
Definition dict_get (d : gmap string json) (k : string) : json :=
  default JNull (d !! k).

(** ** Calendar dates ([datetime.date], [datetime.datetime]) *)

Record date := mkdate { year : Z; month : Z; day : Z }.

Record datetime := mkdatetime {
  dt_year : Z; dt_month : Z; dt_day : Z;
  dt_hour : Z; dt_minute : Z; dt_second : Z; dt_microsecond : Z }.

Definition MINYEAR : Z := 1.
Definition MAXYEAR : Z := 9999.
Definition _MAXORDINAL : Z := 3652059.

Definition _is_leap (y : Z) : bool :=
  (y mod 4 =? 0) && (negb (y mod 100 =? 0) || (y mod 400 =? 0)).

Definition _DAYS_IN_MONTH (m : Z) : Z :=
  match m with
  | 1 => 31 | 2 => 28 | 3 => 31 | 4 => 30 | 5 => 31 | 6 => 30
  | 7 => 31 | 8 => 31 | 9 => 30 | 10 => 31 | 11 => 30 | 12 => 31
  | _ => -1
  end.

Definition _DAYS_BEFORE_MONTH (m : Z) : Z :=
  match m with
  | 1 => 0 | 2 => 31 | 3 => 59 | 4 => 90 | 5 => 120 | 6 => 151
  | 7 => 181 | 8 => 212 | 9 => 243 | 10 => 273 | 11 => 304 | 12 => 334
  | _ => -1
  end.

Definition _days_in_month (y m : Z) : Z :=
  if (m =? 2) && _is_leap y then 29 else _DAYS_IN_MONTH m.

Definition _days_before_year (y : Z) : Z :=
  let y' := y - 1 in y' * 365 + y' / 4 - y' / 100 + y' / 400.

Definition _days_before_month (y m : Z) : Z :=
  _DAYS_BEFORE_MONTH m + (if (2 <? m) && _is_leap y then 1 else 0).

Definition _ymd2ord (y m d : Z) : Z :=
  _days_before_year y + _days_before_month y m + d.

Definition _DI400Y : Z := 146097.
Definition _DI100Y : Z := 36524.
Definition _DI4Y : Z := 1461.

(** Ordinal to (year, month, day), the inverse of [_ymd2ord]. *)
Definition _ord2ymd (n0 : Z) : date :=
  let n := n0 - 1 in
  let n400 := n / _DI400Y in
  let n := n mod _DI400Y in
  let y := n400 * 400 + 1 in
  let n100 := n / _DI100Y in
  let n := n mod _DI100Y in
  let n4 := n / _DI4Y in
  let n := n mod _DI4Y in
  let n1 := n / 365 in
  let n := n mod 365 in
  let y := y + n100 * 100 + n4 * 4 + n1 in
  if (n1 =? 4) || (n100 =? 4) then mkdate (y - 1) 12 31
  else
    let leapyear := (n1 =? 3) && (negb (n4 =? 24) || (n100 =? 3)) in
    let m := Z.shiftr (n + 50) 5 in
    let preceding :=
      _DAYS_BEFORE_MONTH m + (if (2 <? m) && leapyear then 1 else 0) in
    if n <? preceding then
      let m' := m - 1 in
      let preceding' :=
        preceding
        - (_DAYS_IN_MONTH m' + (if (m' =? 2) && leapyear then 1 else 0)) in
      mkdate y m' (n - preceding' + 1)
    else mkdate y m (n - preceding + 1).

(** [date(y, m, d)]: the constructor checks the ranges and raises
    [ValueError] ([None] here) outside them. *)
Definition new_date (y m d : Z) : option date :=
  if (MINYEAR <=? y) && (y <=? MAXYEAR)
     && (1 <=? m) && (m <=? 12)
     && (1 <=? d) && (d <=? _days_in_month y m)
  then Some (mkdate y m d) else None.

(** *** Decimal digits *)

Definition is_digit (c : ascii) : bool :=
  let n := nat_of_ascii c in ((48 <=? n) && (n <=? 57))%nat.

Definition digit_val (c : ascii) : Z := Z.of_nat (nat_of_ascii c - 48).

Definition digit_char (d : Z) : ascii := ascii_of_nat (Z.to_nat d + 48).

(** The value of a run of decimal digits, most significant first. *)
Definition digits_val (cs : list ascii) : Z :=
  fold_left (fun acc c => acc * 10 + digit_val c) cs 0.

(** [n] written with exactly two, and four, decimal digits (the printf
    conversions [%02d] and [%04d], for [n] in range). *)
Definition fmt2 (n : Z) : list ascii :=
  [digit_char (n / 10 mod 10); digit_char (n mod 10)].

Definition fmt4 (n : Z) : list ascii :=
  [digit_char (n / 1000 mod 10); digit_char (n / 100 mod 10);
   digit_char (n / 10 mod 10); digit_char (n mod 10)].

Definition dash : ascii := "-"%char.

(** The strings of the form [YYYY-MM-DD] that name a calendar date, with
    the date they name: ten characters, digits and two dashes, within the
    ranges the constructor checks.  These are the strings
    [datetime.date.fromisoformat] reads in every version of Python; from
    3.11 on it reads other ISO 8601 spellings too ([YYYYMMDD], week dates),
    see [library] below. *)
Definition parse_ymd (s : string) : option date :=
  match list_ascii_of_string s with
  | [y1; y2; y3; y4; s1; m1; m2; s2; d1; d2] =>
      if forallb is_digit [y1; y2; y3; y4; m1; m2; d1; d2]
         && Ascii.eqb s1 dash && Ascii.eqb s2 dash
      then new_date (digits_val [y1; y2; y3; y4])
                    (digits_val [m1; m2]) (digits_val [d1; d2])
      else None
  | _ => None
  end.

(** [date.isoformat()]: ["%04d-%02d-%02d"]. *)
Definition isoformat (d : date) : string :=
  string_of_list_ascii
    (fmt4 (year d) ++ [dash] ++ fmt2 (month d) ++ [dash] ++ fmt2 (day d)).

(** [datetime.timedelta]: days, seconds of the day and microseconds of the
    second, normalised by the constructor. *)
Record timedelta := mktimedelta {
  td_days : Z; td_seconds : Z; td_microseconds : Z }.

Definition new_timedelta (days hours minutes seconds microseconds : Z)
  : timedelta :=
  let us := microseconds
            + 1000000 * (seconds + 60 * minutes + 3600 * hours
                         + 86400 * days) in
  let s := us / 1000000 in
  mktimedelta (s / 86400) (s mod 86400) (us mod 1000000).

Definition timedelta_add (a b : timedelta) : timedelta :=
  new_timedelta (td_days a + td_days b) 0 0 (td_seconds a + td_seconds b)
                (td_microseconds a + td_microseconds b).

Definition toordinal (dt : datetime) : Z :=
  _ymd2ord (dt_year dt) (dt_month dt) (dt_day dt).

(** [datetime + timedelta]: the sum is taken on the ordinal of the day and
    the time of the day; a day outside [1 .. _MAXORDINAL] raises
    [OverflowError] ([None] here). *)
Definition datetime_add (dt : datetime) (other : timedelta)
  : option datetime :=
  let delta :=
    timedelta_add
      (new_timedelta (toordinal dt) (dt_hour dt) (dt_minute dt)
                     (dt_second dt) (dt_microsecond dt))
      other in
  let hour := td_seconds delta / 3600 in
  let rem := td_seconds delta mod 3600 in
  if (0 <? td_days delta) && (td_days delta <=? _MAXORDINAL) then
    let d := _ord2ymd (td_days delta) in
    Some (mkdatetime (year d) (month d) (day d)
                     hour (rem / 60) (rem mod 60) (td_microseconds delta))
  else None.

(** [dt.date()]. *)
Definition date_of (dt : datetime) : date :=
  mkdate (dt_year dt) (dt_month dt) (dt_day dt).

(** [_iso_today_india], on the instant [utcnow()] returned. *)
Definition _iso_today_india (now_utc : datetime) : option date :=
  ist ← datetime_add now_utc (new_timedelta 0 5 30 0 0);
  Some (date_of ist).

(** The message of the [OverflowError] above, as [str(e)] gives it. *)
Definition overflow_message : string := "date value out of range".

(** ** The standard library *)

(** Python strings are kept as the bytes of their UTF-8 encoding.  JSON
    text can name a lone surrogate (as in ["\ud800"]); [json.loads] reads it
    into the string, and UTF-8 has no encoding for it.  Such a code point
    is kept as the three bytes [ED A0..BF 80..BF] that the [surrogatepass]
    error handler writes for it: in the encoding of any other code point
    the byte [ED] is followed by a byte below [A0]. *)
Fixpoint has_surrogate (s : string) : bool :=
  match s with
  | String c (String c' _ as rest) =>
      ((nat_of_ascii c =? 237) && (160 <=? nat_of_ascii c')
       && (nat_of_ascii c' <=? 191))%nat
      || has_surrogate rest
  | _ => false
  end.

(** Every character of [s] is an ASCII character. *)
Definition ascii_only (s : string) : bool :=
  forallb (λ c, (nat_of_ascii c <? 128)%nat) (list_ascii_of_string s).

(** [json.dumps(v, ensure_ascii=False).encode("utf-8")] succeeds: the text
    holds the strings of [v] as they are, so it can be encoded when no
    string of [v], key or value, holds a surrogate. *)
Fixpoint encodable (v : json) : bool :=
  match v with
  | JStr s => negb (has_surrogate s)
  | JArr l => forallb encodable l
  | JObj d =>
      bool_decide
        (map_Forall (λ k (b : bool), has_surrogate k = false ∧ b = true)
           (encodable <$> d))
  | _ => true
  end.

(** The library functions the handler calls whose results differ between
    versions of Python and between platforms.  [None] stands for the
    exception raised.
    - [lib_fromisoformat]: [datetime.date.fromisoformat].  Every version
      reads the valid strings [YYYY-MM-DD]; which other strings are read
      depends on the version.
    - [lib_int]: [int(s)] on a string (white space, underscores, the
      decimal digits of Unicode and the limit on the number of digits make
      up its domain).
    - [lib_strftime_Y]: the [%Y] of [strftime] on a year; four digits from
      year 1000 on, below that the C library decides whether it pads.
    - [lib_encode_message]: [str(e)] for the [UnicodeEncodeError] that
      [text.encode("utf-8")] raises on the text of a value; it names the
      character and its position.
    - [lib_fetch_message]: [str(e)] for an exception that
      [_gather_for_date] lets through; the model does not tell exceptions
      apart ([for_endpoints_returns] below shows there is none). *)
Record library := mklibrary {
  lib_fromisoformat : string → option date;
  lib_int : string → option Z;
  lib_strftime_Y : Z → list ascii;
  lib_encode_message : json → string;
  lib_fetch_message : string;
  lib_fromisoformat_ymd :
    ∀ s d, parse_ymd s = Some d → lib_fromisoformat s = Some d;
  lib_strftime_Y_padded :
    ∀ y, 1000 ≤ y ≤ 9999 → lib_strftime_Y y = fmt4 y }.

(** [_fmt_bse_date]: [strftime("%Y%m%d")], the eight digits the provider
    expects ([%m] and [%d] are padded to two digits everywhere). *)
Definition _fmt_bse_date (L : library) (date_obj : date) : string :=
  string_of_list_ascii
    (lib_strftime_Y L (year date_obj)
     ++ fmt2 (month date_obj) ++ fmt2 (day date_obj)).

(** ** The upstream provider *)

Definition BSE_PRIMARY_URL : string :=
  "https://api.bseindia.com/BseIndiaAPI/api/AnnSubCategoryGetData/w".
Definition BSE_FALLBACK_URL : string :=
  "https://api.bseindia.com/BseIndiaAPI/api/AnnGetData/w".

(** One call of [session.get(url, params=..., headers=..., timeout=...)]. *)
Record request := mkrequest {
  req_url : string;
  req_params : gmap string json;
  req_headers : gmap string string;
  req_timeout : Z }.

(** What a call of [session.get] leads to: it raises (connection error,
    timeout), or it returns a response with a status code, on which
    [r.json()] and [json.loads(r.text)] each give a value or raise
    ([None]). *)
Inductive outcome : Type :=
  | GetRaises
  | Response (status_code : Z) (r_json : option json)
             (text_json : option json).

(** The provider: the outcome of the last request of a history of
    requests. *)
Definition upstream : Type := list request → outcome.

(** ** Results and the fetch state *)

(** A computation returns a value or raises; [except Exception] does not
    look at which exception it was. *)
Inductive result (A : Type) : Type :=
  | Ok (a : A)
  | Raise.
Arguments Ok {A} a.
Arguments Raise {A}.

(** The mutable state of [_gather_for_date]: the list [rows] and the
    requests sent so far, oldest first. *)
Record fetch_state := mkstate {
  rows : list (gmap string json);
  trace : list request }.

(** State is kept when an exception is raised: what was appended to [rows]
    stays appended. *)
Definition M (A : Type) : Type := fetch_state → result A * fetch_state.

Definition ret {A} (a : A) : M A := fun st => (Ok a, st).
Definition raise {A} : M A := fun st => (Raise, st).
Definition bind {A B} (m : M A) (k : A → M B) : M B :=
  fun st =>
    match m st with
    | (Ok a, st') => k a st'
    | (Raise, st') => (Raise, st')
    end.
Definition try_except {A} (m : M A) (handler : M A) : M A :=
  fun st =>
    match m st with
    | (Ok a, st') => (Ok a, st')
    | (Raise, st') => handler st'
    end.
Definition get_rows : M (list (gmap string json)) :=
  fun st => (Ok (rows st), st).
Definition append_row (item : gmap string json) : M unit :=
  fun st => (Ok tt, mkstate (rows st ++ [item]) (trace st)).
Definition lift {A} (r : result A) : M A := fun st => (r, st).

Declare Scope fetch_scope.
Delimit Scope fetch_scope with fetch.
Notation "x <- m ;; k" := (bind m (fun x => k))
  (at level 100, m at next level, right associativity) : fetch_scope.
Notation "m ;; k" := (bind m (fun _ => k))
  (at level 100, right associativity) : fetch_scope.

(** ** [_attachment_url], [_fetch_page] and [_gather_for_date] *)

Definition ATTACH_BASE : string :=
  "https://www.bseindia.com/xml-data/corpfiling/AttachLive/".

Definition request_headers : gmap string string :=
  list_to_map
    [("User-Agent",
      "Mozilla/5.0 (Windows NT 10.0; Win64; x64) "
      +:+ "AppleWebKit/537.36 (KHTML, like Gecko) "
      +:+ "Chrome/120.0.0.0 Safari/537.36");
     ("Referer", "https://www.bseindia.com/");
     ("Accept", "application/json, text/plain, */*");
     ("Accept-Language", "en-US,en;q=0.9");
     ("Connection", "keep-alive")].

Definition base_payload (date_yyyymmdd : string) : gmap string json :=
  list_to_map
    [("strCat", JStr "-1");
     ("strPrevDate", JStr date_yyyymmdd);
     ("strScrip", JStr "");
     ("strSearch", JStr "P");
     ("strToDate", JStr date_yyyymmdd);
     ("strType", JStr "C");
     ("subcategory", JStr "")].

(** [payload = dict(base_payload); payload["pageno"] = p]. *)
Definition page_payload (date_yyyymmdd : string) (p : Z)
  : gmap string json :=
  <["pageno" := JInt p]> (base_payload date_yyyymmdd).

(** The request [_fetch_page] sends for page [p] of an endpoint. *)
Definition page_request (endpoint date_yyyymmdd : string) (p : Z) : request :=
  mkrequest endpoint (page_payload date_yyyymmdd p) request_headers 15.

(** The page number a request carries. *)
Definition pageno (r : request) : option json := req_params r !! "pageno".

(** The body of [_fetch_page] after [session.get] returned or raised:
    [raise_for_status] raises on the 4xx and 5xx codes, then [r.json()],
    and on its failure [json.loads(r.text)]. *)
Definition read_response (o : outcome) : result json :=
  match o with
  | GetRaises => Raise
  | Response code r_json text_json =>
      if (400 <=? code) && (code <? 600) then Raise
      else match r_json with
           | Some v => Ok v
           | None => match text_json with
                     | Some v => Ok v
                     | None => Raise
                     end
           end
  end.

(** [page_data.get("Table") or page_data.get("table") or []]; a value that
    is no dict has no [get]. *)
Definition page_table (page_data : json) : result json :=
  match page_data with
  | JObj d =>
      Ok (py_or (py_or (dict_get d "Table") (dict_get d "table")) (JArr []))
  | _ => Raise
  end.

(** [for item in table]: lists give their elements, strings their
    characters, dicts their keys; the other values are not iterable. *)
Definition py_iter (table : json) : result (list json) :=
  match table with
  | JArr l => Ok l
  | JStr s => Ok ((fun c => JStr (String c EmptyString))
                    <$> list_ascii_of_string s)
  | JObj d => Ok (JStr <$> (map_to_list d).*1)
  | _ => Raise
  end.

(** [item.get("ATTACHMENTNAME") or item.get("AttachmentName")]. *)
Definition attachment (item : gmap string json) : json :=
  py_or (dict_get item "ATTACHMENTNAME") (dict_get item "AttachmentName").

Section Fetch.

(** The provider, and Python's [str()] on the values that are not
    strings (an f-string field holding a string is the string itself). *)
Variable u : upstream.
Variable str_of : json → string.

Definition format_field (v : json) : string :=
  match v with
  | JStr s => s
  | _ => str_of v
  end.

Definition _attachment_url (name : json) : string :=
  ATTACH_BASE +:+ format_field name.

(** The loop body of lines 98 to 100: [item["pdf_url"]] is set when the
    attachment name is true. *)
Definition enrich (item : gmap string json) : gmap string json :=
  let attach := attachment item in
  if truthy attach then <["pdf_url" := JStr (_attachment_url attach)]> item
  else item.

Definition _fetch_page (url : string) (payload : gmap string json)
    (headers : gmap string string) : M json :=
  fun st =>
    let tr := trace st ++ [mkrequest url payload headers 15] in
    (read_response (u tr), mkstate (rows st) tr).

(** [for item in table: ...; rows.append(item)]. *)
Fixpoint add_items (items : list json) : M unit :=
  match items with
  | [] => ret tt
  | JObj item :: rest =>
      (append_row (enrich item) ;; add_items rest)%fetch
  | _ :: _ => raise
  end.

(** [for p in range(1, page_limit + 1)], over the page numbers left;
    returning early is the [break]. *)
Fixpoint paginate (endpoint date_yyyymmdd : string) (pages : list Z)
  : M unit :=
  match pages with
  | [] => ret tt
  | p :: rest =>
      (page_data <- _fetch_page endpoint (page_payload date_yyyymmdd p)
                      request_headers ;;
       table <- lift (page_table page_data) ;;
       if negb (truthy table) then ret tt
       else (items <- lift (py_iter table) ;;
             add_items items ;;
             paginate endpoint date_yyyymmdd rest))%fetch
  end.

(** One turn of [for endpoint in endpoint_chain]: [true] is the [break]
    of line 105, [false] goes on to the next endpoint (the end of the
    body, or the [continue] of line 108). *)
Definition try_endpoint (endpoint date_yyyymmdd : string) (page_limit : Z)
  : M bool :=
  try_except
    (data <- _fetch_page endpoint (page_payload date_yyyymmdd 1)
               request_headers ;;
     paginate endpoint date_yyyymmdd (seqZ 1 page_limit) ;;
     rs <- get_rows ;;
     ret (match rs with [] => false | _ :: _ => true end))%fetch
    (ret false).

Fixpoint for_endpoints (chain : list string) (date_yyyymmdd : string)
    (page_limit : Z) : M unit :=
  match chain with
  | [] => ret tt
  | endpoint :: rest =>
      (stop <- try_endpoint endpoint date_yyyymmdd page_limit ;;
       if (stop : bool) then ret tt
       else for_endpoints rest date_yyyymmdd page_limit)%fetch
  end.

Definition endpoint_chain : list string :=
  [BSE_PRIMARY_URL; BSE_FALLBACK_URL].

(** How the endpoint loop of [_gather_for_date] ends: normally, so that
    line 110 returns [rows], or in an exception that leaves the function. *)
Definition gather_result (date_yyyymmdd : string) (page_limit : Z)
  : result unit :=
  fst (for_endpoints endpoint_chain date_yyyymmdd page_limit
         (mkstate [] [])).

(** The state the loop ends in: the list [rows] and the requests sent. *)
Definition gather_state (date_yyyymmdd : string) (page_limit : Z)
  : fetch_state :=
  snd (for_endpoints endpoint_chain date_yyyymmdd page_limit
         (mkstate [] [])).

Definition _gather_for_date (date_yyyymmdd : string) (page_limit : Z)
  : list (gmap string json) :=
  rows (gather_state date_yyyymmdd page_limit).

Definition gather_trace (date_yyyymmdd : string) (page_limit : Z)
  : list request :=
  trace (gather_state date_yyyymmdd page_limit).

End Fetch.

(** ** The request handler *)

(** What the handler writes to the connection, in order: the status line
    of a [send_response], the header of a [send_header], [end_headers], and
    the bytes of a [wfile.write(text.encode("utf-8"))], kept as the value
    that was handed to [json.dumps]. *)
Inductive event : Type :=
  | SendResponse (code : Z)
  | SendHeader (header : string * string)
  | EndHeaders
  | WriteBody (text : json).

(** The events of one whole response: status line, headers, end of the
    headers and, when there is one, the body. *)
Definition mkresponse (c : Z) (hs : list (string * string))
    (text : option json) : list event :=
  SendResponse c
  :: (SendHeader <$> hs)
  ++ EndHeaders
     :: match text with
        | Some v => [WriteBody v]
        | None => []
        end.

(** What a client reads of the events written: the status of the first
    status line, the headers up to the first end of headers, and as body
    whatever was written after it. *)
Definition code (w : list event) : Z :=
  match w with
  | SendResponse c :: _ => c
  | _ => 0
  end.

Fixpoint headers (w : list event) : list (string * string) :=
  match w with
  | [] => []
  | EndHeaders :: _ => []
  | SendHeader h :: rest => h :: headers rest
  | _ :: rest => headers rest
  end.

Fixpoint body (w : list event) : list event :=
  match w with
  | [] => []
  | EndHeaders :: rest => rest
  | _ :: rest => body rest
  end.

(** A field of the JSON object the body consists of; [None] when the body
    is not one JSON object. *)
Definition body_field (w : list event) (k : string) : option json :=
  match body w with
  | [WriteBody (JObj d)] => d !! k
  | _ => None
  end.

Definition CONTENT_TYPE : string * string :=
  ("Content-Type", "application/json; charset=utf-8").

Definition CORS_HEADERS : list (string * string) :=
  [("Access-Control-Allow-Origin", "*");
   ("Access-Control-Allow-Methods", "GET, OPTIONS");
   ("Access-Control-Allow-Headers", "Content-Type")].

Definition _ok_json (body : json) (code : Z)
  : Z * list (string * string) * json :=
  (code, [CONTENT_TYPE], body).

Definition INVALID_DATE : string := "Invalid date. Use YYYY-MM-DD.".

(** The request target: [urlparse(self.path)] raises a [ValueError] with a
    message (["Invalid IPv6 URL"] for the target [http://[/]), or it gives
    a query.  The query is kept as its fields [name=value] in order, with
    the percent escapes decoded; a field without [=], or with nothing after
    it, has the value [""]. *)
Inductive target : Type :=
  | BadUrl (message : string)
  | Query (fields : list (string * string)).

(** [parse_qs] on the fields of a query: a field with an empty value is
    dropped ([keep_blank_values] is off), and the values of a name are
    collected in the order of the fields. *)
Definition parse_qs (fields : list (string * string))
  : gmap string (list string) :=
  fold_left
    (λ parsed '(name, value),
       if String.eqb value "" then parsed
       else <[name := default [] (parsed !! name) ++ [value]]> parsed)
    fields ∅.

(** [k in qs and qs[k]], then [qs[k][0]]: the first value of a parameter
    that is present with a non-empty list of values. *)
Definition qs_first (qs : gmap string (list string)) (k : string)
  : option string :=
  match qs !! k with
  | Some (v :: _) => Some v
  | _ => None
  end.

(** Lines 152 to 157: the page limit the handler passes on. *)
Definition page_limit_of (L : library) (qs : gmap string (list string)) : Z :=
  match qs_first qs "limit_pages" with
  | Some s =>
      match lib_int L s with
      | Some v => Z.max 1 (Z.min 200 v)
      | None => 50
      end
  | None => 50
  end.

(** The response envelope of lines 162 to 166. *)
Definition envelope (date_obj : date) (rs : list (gmap string json))
  : json :=
  JObj (<["date" := JStr (isoformat date_obj)]>
        (<["count" := JInt (Z.of_nat (length rs))]>
         (<["rows" := JArr (JObj <$> rs)]> ∅))).

Definition error_body (message : string) : json :=
  JObj {["error" := JStr message]}.

Section Handler.

Variable L : library.
Variable u : upstream.
Variable str_of : json → string.
(** The instant [datetime.datetime.utcnow()] returns. *)
Variable now_utc : datetime.

(** [send_response(code)], a [send_header] for each header,
    [end_headers()], then [wfile.write(text.encode("utf-8"))].  The result
    is [None] when the body was written; when [encode] raises, the status
    line and the headers are sent already, and the result is the message
    of the exception. *)
Definition send (c : Z) (hs : list (string * string)) (text : json)
  : list event * option string :=
  if encodable text then (mkresponse c hs (Some text), None)
  else (mkresponse c hs None, Some (lib_encode_message L text)).

(** Lines 179 to 185, the body of [except Exception as e] with [message]
    for [str(e)].  An exception raised here leaves [do_GET], and nothing
    more is written. *)
Definition respond_500 (message : string) : list event :=
  let '(c, hs, text) := _ok_json (error_body message) 500 in
  (send c hs text).1.

(** Lines 141 to 148, up to the [return]. *)
Definition respond_400 : list event * option string :=
  let '(c, hs, text) := _ok_json (error_body INVALID_DATE) 400 in
  send c hs text.

(** Lines 162 to 177: the envelope of [rows] and the 200 response. *)
Definition respond_200 (date_obj : date) (rs : list (gmap string json))
  : list event * option string :=
  let '(c, hs, text) := _ok_json (envelope date_obj rs) 200 in
  send c (hs ++ CORS_HEADERS) text.

(** Lines 152 to 177, once [date_obj] is known: what is written, the
    message of the exception raised if one was, and the requests sent
    upstream. *)
Definition serve (qs : gmap string (list string)) (date_obj : date)
  : list event * option string * list request :=
  let page_limit := page_limit_of L qs in
  let date_yyyymmdd := _fmt_bse_date L date_obj in
  match gather_result u str_of date_yyyymmdd page_limit with
  | Ok _ =>
      (respond_200 date_obj
         (_gather_for_date u str_of date_yyyymmdd page_limit),
       gather_trace u str_of date_yyyymmdd page_limit)
  | Raise =>
      (([], Some (lib_fetch_message L)),
       gather_trace u str_of date_yyyymmdd page_limit)
  end.

(** The body of the [try] of [do_GET], lines 132 to 177. *)
Definition try_do_GET (t : target)
  : list event * option string * list request :=
  match t with
  | BadUrl message => (([], Some message), [])
  | Query fields =>
      let qs := parse_qs fields in
      match qs_first qs "date" with
      | Some s =>
          match lib_fromisoformat L s with
          | Some date_obj => serve qs date_obj
          | None => (respond_400, [])
          end
      | None =>
          match _iso_today_india now_utc with
          | Some date_obj => serve qs date_obj
          | None => (([], Some overflow_message), [])
          end
      end
  end.

(** [do_GET]: the [try], and on an exception the 500 response of the
    [except], written after whatever the [try] had written.  The result is
    what was written to the connection and the requests sent upstream. *)
Definition do_GET (t : target) : list event * list request :=
  let '(w, e, tr) := try_do_GET t in
  (match e with
   | None => w
   | Some message => w ++ respond_500 message
   end, tr).

Definition do_OPTIONS : list event :=
  mkresponse 204 CORS_HEADERS None.

End Handler.

(** What [do_GET] writes once the rows [rs] of the date are fetched: the
    200 response with the envelope; or, when the text of the envelope cannot
    be encoded, the status line and the headers of the 200 response, and
    after them the 500 response of the [except]. *)
Definition answer (L : library) (date_obj : date)
    (rs : list (gmap string json)) : list event :=
  let '(w, e) := respond_200 L date_obj rs in
  match e with
  | None => w
  | Some message => w ++ respond_500 L message
  end.

(** [do_GET] answers for the date [d] with the rows of [_gather_for_date]
    called with [page_limit], having sent the requests of that call. *)
Definition fetched_with (L : library) (u : upstream) (str_of : json → string)
    (now_utc : datetime) (t : target) (d : date) (page_limit : Z) : Prop :=
  do_GET L u str_of now_utc t
  = (answer L d (_gather_for_date u str_of (_fmt_bse_date L d) page_limit),
     gather_trace u str_of (_fmt_bse_date L d) page_limit).

(** ** A sample library *)

(** A library for the examples.  Its [fromisoformat] reads the form
    [YYYY-MM-DD] only, as CPython does up to 3.10; its [int] reads an
    optional sign and one to 4300 ASCII digits and nothing else (where it
    reads a number, [int] reads the same number; [int] reads more strings);
    its [%Y] has four digits for every year; its message for a text that
    cannot be encoded is the one CPython gives for the envelope of one row
    [{"HEADLINE": "\ud800"}], where the surrogate is character 58 of the
    text. *)
Definition int_of_digits (s : string) : option Z :=
  let digits ds :=
    if forallb is_digit ds && (1 <=? length ds)%nat
       && (length ds <=? 4300)%nat
    then Some (digits_val ds) else None in
  match list_ascii_of_string s with
  | "-"%char :: ds => Z.opp <$> digits ds
  | "+"%char :: ds => digits ds
  | ds => digits ds
  end.

Definition SURROGATE_MESSAGE : string :=
  "'utf-8' codec can't encode character '\ud800' in position 58: "
  +:+ "surrogates not allowed".

Definition sample_library : library :=
  {| lib_fromisoformat := parse_ymd;
     lib_int := int_of_digits;
     lib_strftime_Y := fmt4;
     lib_encode_message := λ _, SURROGATE_MESSAGE;
     lib_fetch_message := "error";
     lib_fromisoformat_ymd := λ s d H, H;
     lib_strftime_Y_padded := λ y _, eq_refl |}.

(** ** Sample providers *)

(** Every request fails (connection refused, timeout). *)
Definition u_down : upstream := fun _ => GetRaises.

(** Every request is answered with an empty [Table]. *)
Definition u_empty : upstream :=
  fun _ => Response 200 (Some (JObj {["Table" := JArr []]})) None.

Definition str_none : json → string := fun _ => "".

Definition noon : datetime := mkdatetime 2024 3 15 12 0 0 0.

(** A response whose [Table] is the list [items]. *)
Definition table_response (items : list json) : outcome :=
  Response 200 (Some (JObj {["Table" := JArr items]})) None.

Definition page_is (r : request) (p : Z) : bool :=
  match pageno r with
  | Some (JInt z) => z =? p
  | _ => false
  end.

(** Page 1 holds [items], every other page is empty, on both endpoints. *)
Definition u_page1 (items : list json) : upstream :=
  fun h =>
    match last h with
    | Some r => if page_is r 1 then table_response items
                else table_response []
    | None => GetRaises
    end.

(** The first request is answered with an empty [Table], the second with
    one row, the later ones with an empty [Table] again. *)
Definition u_late : upstream :=
  fun h =>
    match length h with
    | 2%nat => table_response [JObj {["NEWSID" := JStr "n1"]}]
    | _ => table_response []
    end.

Definition row_primary : gmap string json := {["SRC" := JStr "primary"]}.
Definition row_fallback : gmap string json := {["SRC" := JStr "fallback"]}.

(** The primary endpoint serves one row on page 1 and fails on page 2; the
    fallback serves one row on page 1 and an empty page 2. *)
Definition u_mixed : upstream :=
  fun h =>
    match last h with
    | Some r =>
        if String.eqb (req_url r) BSE_PRIMARY_URL then
          if page_is r 1 then table_response [JObj row_primary]
          else GetRaises
        else
          if page_is r 1 then table_response [JObj row_fallback]
          else table_response []
    | None => GetRaises
    end.

(** A string that holds the lone surrogate U+D800 and nothing else, and a
    row with that string as a value, as [json.loads] builds it from the text
    [{"HEADLINE": "\ud800"}]. *)
Definition lone_surrogate : string :=
  String (ascii_of_nat 237)
    (String (ascii_of_nat 160) (String (ascii_of_nat 128) EmptyString)).

Definition row_surrogate : gmap string json :=
  {["HEADLINE" := JStr lone_surrogate]}.

(** A row that comes with a [pdf_url] of its own and no attachment name,
    and a row with an attachment name. *)
Definition row_with_pdf_url : gmap string json :=
  {["pdf_url" := JStr "from-upstream"]}.
Definition row_with_attachment : gmap string json :=
  {["AttachmentName" := JStr "123.pdf"]}.

(** ** What a run shows *)

(** The table read from the response to the last request of a history. *)
Definition served_table (u : upstream) (h : list request) : result json :=
  match read_response (u h) with
  | Ok data => page_table data
  | Raise => Raise
  end.

(** The response to the last request of [h] has an empty or missing
    [Table] (and [table]). *)
Definition page_ends (u : upstream) (h : list request) : bool :=
  match served_table u h with
  | Ok table => negb (truthy table)
  | Raise => false
  end.

(** The requests an endpoint receives when [k] pages are fetched after the
    probe. *)
Definition segment (endpoint date_yyyymmdd : string) (k : nat)
  : list request :=
  page_request endpoint date_yyyymmdd 1
  :: (page_request endpoint date_yyyymmdd <$> seqZ 1 (Z.of_nat k)).

(** [item] is a row of the [Table] list of a response received in a run
    whose requests were [tr]. *)
Definition served (u : upstream) (tr : list request)
    (item : gmap string json) : Prop :=
  ∃ h data items,
    h `prefix_of` tr
    ∧ read_response (u h) = Ok data
    ∧ page_table data = Ok (JArr items)
    ∧ JObj item ∈ items.

(** The page numbers requested from an endpoint, in the order of the
    requests. *)
Definition pages_requested (endpoint : string) (tr : list request)
  : list (option json) :=
  pageno <$> filter (λ r, req_url r = endpoint) tr.

(** The rows one turn of the endpoint loop appends, from the state the
    turn starts in. *)
Definition endpoint_rows (u : upstream) (str_of : json → string)
    (endpoint date_yyyymmdd : string) (page_limit : Z) (st : fetch_state)
  : list (gmap string json) :=
  drop (length (rows st))
       (rows (try_endpoint u str_of endpoint date_yyyymmdd page_limit st).2).

(** The handler resolves the date to [d]: the parameter is supplied and
    parses, or it is absent and the clock plus 5:30 is in range. *)
Definition date_resolves (L : library) (now_utc : datetime)
    (qs : gmap string (list string)) (d : date) : Prop :=
  (∃ s, qs_first qs "date" = Some s ∧ lib_fromisoformat L s = Some d)
  ∨ (qs_first qs "date" = None ∧ _iso_today_india now_utc = Some d).

(** The first value given for [name] among the fields of a query that is
    not empty. *)
Definition first_value (fields : list (string * string)) (name : string)
  : option string :=
  head (filter (λ v, v ≠ "")
          (snd <$> filter (λ f, f.1 = name) fields)).

(** ** Kinds of provider responses *)

Definition is_obj (v : json) : bool :=
  match v with
  | JObj _ => true
  | _ => false
  end.

(** A response [_gather_for_date] reads without an exception: it parses,
    it is a dict, and its table is a list of dicts or a value that is
    false. *)
Definition well_formed (o : outcome) : bool :=
  match read_response o with
  | Ok data =>
      match page_table data with
      | Ok (JArr items) => forallb is_obj items
      | Ok table => negb (truthy table)
      | Raise => false
      end
  | Raise => false
  end.

(** A well-formed response with at least one row. *)
Definition rich (o : outcome) : bool :=
  match read_response o with
  | Ok data =>
      match page_table data with
      | Ok (JArr (item :: items)) => forallb is_obj (item :: items)
      | _ => false
      end
  | Raise => false
  end.

(** The turn of an endpoint that starts after the requests [before]
    fetches [k] pages after its probe: none when the probe fails; else the
    page loop goes on after each page that holds rows, so that every page
    before page [k] held rows, and page [k] did not unless it is the last
    page the limit allows. *)
Definition turn_pages (u : upstream) (endpoint date_yyyymmdd : string)
    (page_limit : Z) (before : list request) (k : nat) : Prop :=
  Z.of_nat k ≤ Z.max 0 page_limit
  ∧ match k with
    | O =>
        0 < page_limit →
        read_response (u (before ++ segment endpoint date_yyyymmdd 0)) = Raise
    | S _ =>
        read_response (u (before ++ segment endpoint date_yyyymmdd 0)) ≠ Raise
        ∧ (∀ j, (1 ≤ j < k)%nat →
                rich (u (before ++ segment endpoint date_yyyymmdd j)) = true)
        ∧ (Z.of_nat k < page_limit →
           rich (u (before ++ segment endpoint date_yyyymmdd k)) = false)
    end.

(** A request that fails in [_fetch_page]: [session.get] raises, the status
    is a 4xx or 5xx, or the body parses neither way. *)
Definition fails (o : outcome) : bool :=
  match o with
  | GetRaises => true
  | Response status_code r_json text_json =>
      ((400 <=? status_code) && (status_code <? 600))
      || (match r_json, text_json with
          | None, None => true
          | _, _ => false
          end)
  end.

(** Every request is answered with the same [Table]. *)
Definition u_always (items : list json) : upstream :=
  fun _ => table_response items.

(** Every request is answered with status 503 and a body that holds a
    row. *)
Definition u_http_503 : upstream :=
  fun _ => Response 503 (Some (JObj {["Table" := JArr [JObj row_primary]]}))
             None.

(** ** The calendar, for stating what [_iso_today_india] returns *)

(** [f] holds of every number below [n]. *)
Fixpoint all_below (n : nat) (f : nat → bool) : bool :=
  match n with
  | O => true
  | S k => f k && all_below k f
  end.

(** [d.toordinal()]. *)
Definition date_ordinal (d : date) : Z := _ymd2ord (year d) (month d) (day d).

(** The month and day of the day numbered [n] (from 0) of a year, as the
    last lines of [_ord2ymd] find them. *)
Definition month_day (n : Z) (leapyear : bool) : Z * Z :=
  let m := Z.shiftr (n + 50) 5 in
  let preceding :=
    _DAYS_BEFORE_MONTH m + (if (2 <? m) && leapyear then 1 else 0) in
  if n <? preceding then
    let m' := m - 1 in
    let preceding' :=
      preceding
      - (_DAYS_IN_MONTH m' + (if (m' =? 2) && leapyear then 1 else 0)) in
    (m', n - preceding' + 1)
  else (m, n - preceding + 1).

(** [month_day] gives day [k] of a year a month and a day of that month,
    and the days before them number [k]. *)
Definition year_day_ok (leapyear : bool) (k : Z) : bool :=
  let m := (month_day k leapyear).1 in
  let d := (month_day k leapyear).2 in
  (1 <=? m) && (m <=? 12) && (1 <=? d)
  && (d <=? (if (m =? 2) && leapyear then 29 else _DAYS_IN_MONTH m))
  && (_DAYS_BEFORE_MONTH m + (if (2 <? m) && leapyear then 1 else 0) + d
      =? k + 1).

(** A month of the year and a day of that month. *)
Definition valid_month_day (y m d : Z) : Prop :=
  1 ≤ m ≤ 12 ∧ 1 ≤ d ≤ _days_in_month y m.

(** The seconds since midnight of an instant. *)
Definition seconds_of_day (dt : datetime) : Z :=
  dt_hour dt * 3600 + dt_minute dt * 60 + dt_second dt.

(** The ranges of the fields of a [datetime]. *)
Definition valid_datetime (dt : datetime) : Prop :=
  1 ≤ dt_year dt ≤ 9999
  ∧ valid_month_day (dt_year dt) (dt_month dt) (dt_day dt)
  ∧ 0 ≤ dt_hour dt < 24 ∧ 0 ≤ dt_minute dt < 60 ∧ 0 ≤ dt_second dt < 60
  ∧ 0 ≤ dt_microsecond dt < 1000000.

(** ** More on provider responses *)

(** The dicts among the items of the table served in response to the last
    request of [h]. *)
Definition table_rows (u : upstream) (h : list request)
  : list (gmap string json) :=
  match served_table u h with
  | Ok (JArr items) =>
      omap (λ v, match v with JObj d => Some d | _ => None end) items
  | _ => []
  end.

(** * Properties *)

(** ** The definitions on sample inputs *)

Example parse_ymd_ok : parse_ymd "2024-02-29" = Some (mkdate 2024 2 29).
Proof. reflexivity. Qed.

Example parse_ymd_bad_day : parse_ymd "2024-02-30" = None.
Proof. reflexivity. Qed.

Example parse_ymd_not_a_date : parse_ymd "not-a-date" = None.
Proof. reflexivity. Qed.

Example isoformat_pads : isoformat (mkdate 987 6 5) = "0987-06-05".
Proof. reflexivity. Qed.

Example today_india_rolls_over :
  _iso_today_india (mkdatetime 2024 2 28 18 30 0 0) = Some (mkdate 2024 2 29).
Proof. reflexivity. Qed.

Example today_india_same_day :
  _iso_today_india (mkdatetime 2023 12 31 18 29 59 999999)
  = Some (mkdate 2023 12 31).
Proof. reflexivity. Qed.

Example today_india_new_year :
  _iso_today_india (mkdatetime 2023 12 31 23 0 0 0) = Some (mkdate 2024 1 1).
Proof. reflexivity. Qed.

Example today_india_overflow :
  _iso_today_india (mkdatetime 9999 12 31 20 0 0 0) = None.
Proof. reflexivity. Qed.

(** [parse_qs] drops the empty values and keeps the order of the others. *)
Example parse_qs_sample :
  parse_qs [("date", ""); ("limit_pages", "3"); ("date", "2024-01-01");
            ("x", ""); ("date", "2024-01-02")]
  = {["limit_pages" := ["3"]; "date" := ["2024-01-01"; "2024-01-02"]]}.
Proof. vm_compute. reflexivity. Qed.

Example parse_qs_empty_date : parse_qs [("date", "")] = ∅.
Proof. reflexivity. Qed.

Example encodable_surrogate :
  encodable (JObj row_surrogate) = false
  ∧ encodable (JObj {["SRC" := JArr [JStr "primary"; JNull]]}) = true.
Proof. split; vm_compute; reflexivity. Qed.

Example do_GET_down :
  do_GET sample_library u_down str_none noon (Query [("date", "2024-01-01")])
  = (mkresponse 200 (CONTENT_TYPE :: CORS_HEADERS)
       (Some (envelope (mkdate 2024 1 1) [])),
     [page_request BSE_PRIMARY_URL "20240101" 1;
      page_request BSE_FALLBACK_URL "20240101" 1]).
Proof. vm_compute. reflexivity. Qed.

(** A target [urlparse] raises on is answered 500 with the message of the
    exception, and nothing is sent upstream. *)
Example do_GET_bad_url :
  do_GET sample_library u_down str_none noon (BadUrl "Invalid IPv6 URL")
  = (mkresponse 500 [CONTENT_TYPE]
       (Some (error_body "Invalid IPv6 URL")), []).
Proof. vm_compute. reflexivity. Qed.

(** ** Dates: [isoformat] undoes the reading of [YYYY-MM-DD] *)

Lemma digit_val_range c : is_digit c = true → 0 ≤ digit_val c ≤ 9.
Proof.
  unfold is_digit, digit_val. intros H.
  apply andb_true_iff in H as [H1 H2].
  apply Nat.leb_le in H1, H2. lia.
Qed.

Lemma digit_char_val c : is_digit c = true → digit_char (digit_val c) = c.
Proof.
  unfold is_digit, digit_val, digit_char. intros H.
  apply andb_true_iff in H as [H1 _]. apply Nat.leb_le in H1.
  rewrite Nat2Z.id.
  replace (nat_of_ascii c - 48 + 48)%nat with (nat_of_ascii c) by lia.
  apply ascii_nat_embedding.
Qed.

Lemma fmt2_digits a b :
  0 ≤ a ≤ 9 → 0 ≤ b ≤ 9 →
  fmt2 (a * 10 + b) = [digit_char a; digit_char b].
Proof.
  intros Ha Hb. unfold fmt2.
  replace ((a * 10 + b) / 10 mod 10) with a
    by (Z.div_mod_to_equations; lia).
  replace ((a * 10 + b) mod 10) with b by (Z.div_mod_to_equations; lia).
  reflexivity.
Qed.

Lemma fmt4_digits a b c d :
  0 ≤ a ≤ 9 → 0 ≤ b ≤ 9 → 0 ≤ c ≤ 9 → 0 ≤ d ≤ 9 →
  fmt4 (((a * 10 + b) * 10 + c) * 10 + d)
  = [digit_char a; digit_char b; digit_char c; digit_char d].
Proof.
  intros Ha Hb Hc Hd. unfold fmt4.
  set (n := ((a * 10 + b) * 10 + c) * 10 + d).
  replace (n / 1000 mod 10) with a
    by (subst n; Z.div_mod_to_equations; lia).
  replace (n / 100 mod 10) with b by (subst n; Z.div_mod_to_equations; lia).
  replace (n / 10 mod 10) with c by (subst n; Z.div_mod_to_equations; lia).
  replace (n mod 10) with d by (subst n; Z.div_mod_to_equations; lia).
  reflexivity.
Qed.

Lemma new_date_fields y m d dt :
  new_date y m d = Some dt → year dt = y ∧ month dt = m ∧ day dt = d.
Proof.
  unfold new_date. destruct (_ && _); [|discriminate].
  intros [= <-]. auto.
Qed.

Lemma new_date_year y m d dt : new_date y m d = Some dt → 1 ≤ year dt ≤ 9999.
Proof.
  unfold new_date, MINYEAR, MAXYEAR.
  destruct (_ && _) eqn:C; [|discriminate]. intros [= <-]. cbn.
  repeat (apply andb_true_iff in C as [C ?]). lia.
Qed.

(** The characters of a string [parse_ymd] reads, and the fields of the
    date read. *)
Lemma parse_ymd_inv s dt :
  parse_ymd s = Some dt →
  ∃ y1 y2 y3 y4 m1 m2 d1 d2,
    s = string_of_list_ascii [y1; y2; y3; y4; dash; m1; m2; dash; d1; d2]
    ∧ fmt4 (year dt) = [y1; y2; y3; y4]
    ∧ fmt2 (month dt) = [m1; m2]
    ∧ fmt2 (day dt) = [d1; d2]
    ∧ 1 ≤ year dt ≤ 9999.
Proof.
  unfold parse_ymd. intros H.
  destruct (list_ascii_of_string s)
    as [|y1 [|y2 [|y3 [|y4 [|s1 [|m1 [|m2 [|s2 [|d1 [|d2 [|? ?]]]]]]]]]]]
    eqn:E; try discriminate.
  destruct (forallb is_digit _ && _ && _) eqn:C; [|discriminate].
  apply andb_true_iff in C as [C Hs2].
  apply andb_true_iff in C as [C Hs1].
  apply Ascii.eqb_eq in Hs1, Hs2. subst s1 s2.
  cbn [forallb] in C.
  repeat (apply andb_true_iff in C as [?Hd C]).
  pose proof (new_date_year _ _ _ _ H) as Hyear.
  apply new_date_fields in H as (Hy & Hm & Hday).
  exists y1, y2, y3, y4, m1, m2, d1, d2.
  refine (conj _ (conj _ (conj _ (conj _ Hyear)))).
  - by rewrite <- (string_of_list_ascii_of_string s), E.
  - rewrite Hy. unfold digits_val. cbn [fold_left].
    rewrite !Z.mul_0_l, !Z.add_0_l.
    rewrite fmt4_digits by (apply digit_val_range; assumption).
    by rewrite !digit_char_val by assumption.
  - rewrite Hm. unfold digits_val. cbn [fold_left].
    rewrite !Z.mul_0_l, !Z.add_0_l.
    rewrite fmt2_digits by (apply digit_val_range; assumption).
    by rewrite !digit_char_val by assumption.
  - rewrite Hday. unfold digits_val. cbn [fold_left].
    rewrite !Z.mul_0_l, !Z.add_0_l.
    rewrite fmt2_digits by (apply digit_val_range; assumption).
    by rewrite !digit_char_val by assumption.
Qed.

(** A string [parse_ymd] reads is the [isoformat] of the date read. *)
Lemma isoformat_parse_ymd s d : parse_ymd s = Some d → isoformat d = s.
Proof.
  intros H.
  destruct (parse_ymd_inv s d H)
    as (y1 & y2 & y3 & y4 & m1 & m2 & d1 & d2 & -> & Hy & Hm & Hd & _).
  unfold isoformat. by rewrite Hy, Hm, Hd.
Qed.

(** ** The shape of a run of [_gather_for_date] *)

Lemma all_objects items :
  forallb is_obj items = true → ∃ ds, items = JObj <$> ds.
Proof.
  induction items as [|x items IH]; intros H.
  - by exists [].
  - cbn in H. apply andb_true_iff in H as [Hx H].
    destruct (IH H) as (ds & ->).
    destruct x; try discriminate Hx. by exists (d :: ds).
Qed.

Lemma snoc_not_nil {A} (l : list A) x : l ++ [x] ≠ [].
Proof. intros H. apply app_eq_nil in H as [_ H]. discriminate. Qed.

Lemma add_items_all_dicts str_of (ds : list (gmap string json)) st :
  add_items str_of (JObj <$> ds) st
  = (Ok tt, mkstate (rows st ++ (enrich str_of <$> ds)) (trace st)).
Proof.
  revert st. induction ds as [|x ds IH]; intros st.
  - cbn. rewrite app_nil_r. by destruct st.
  - cbn [fmap list_fmap add_items]. unfold bind, append_row.
    rewrite IH. cbn [rows trace]. by rewrite <- app_assoc.
Qed.

Lemma add_items_non_dict str_of
    (ds : list (gmap string json)) bad rest st :
  is_obj bad = false →
  add_items str_of ((JObj <$> ds) ++ bad :: rest) st
  = (Raise, mkstate (rows st ++ (enrich str_of <$> ds)) (trace st)).
Proof.
  intros Hbad. revert st. induction ds as [|x ds IH]; intros st.
  - cbn [fmap list_fmap app add_items]. rewrite app_nil_r.
    destruct bad; try discriminate Hbad; by destruct st.
  - cbn [fmap list_fmap app add_items]. unfold bind, append_row.
    rewrite IH. cbn [rows trace]. by rewrite <- app_assoc.
Qed.

Section Run.

Variable u : upstream.
Variable str_of : json → string.

Lemma add_items_trace items st :
  trace (add_items str_of items st).2 = trace st.
Proof.
  revert st. induction items as [|item items IH]; intros st; [reflexivity|].
  destruct item; try reflexivity.
  cbn [add_items]. unfold bind, append_row. cbn. by rewrite IH.
Qed.

(** What [add_items] appends: the enriched dicts at the head of [items]. *)
Lemma add_items_rows items st :
  ∃ ds : list (gmap string json),
    rows (add_items str_of items st).2 = rows st ++ (enrich str_of <$> ds)
    ∧ ∀ x, x ∈ ds → JObj x ∈ items.
Proof.
  revert st. induction items as [|item items IH]; intros st.
  - exists []. split; [by rewrite app_nil_r | intros x Hx; inversion Hx].
  - destruct item as [| | | | | |d];
      try (exists []; split; [by rewrite app_nil_r | intros x Hx; inversion Hx]).
    cbn [add_items]. unfold bind, append_row. cbn.
    destruct (IH (mkstate (rows st ++ [enrich str_of d]) (trace st)))
      as (ds & Hrows & Hin).
    exists (d :: ds). split.
    + rewrite Hrows. cbn. by rewrite <- app_assoc.
    + intros x Hx. apply elem_of_cons in Hx as [->|Hx].
      * apply elem_of_cons. by left.
      * apply elem_of_cons. right. by apply Hin.
Qed.

Lemma fetch_page_run url payload hs st :
  _fetch_page u url payload hs st
  = (read_response (u (trace st ++ [mkrequest url payload hs 15])),
     mkstate (rows st) (trace st ++ [mkrequest url payload hs 15])).
Proof. reflexivity. Qed.

Lemma paginate_unfold e d p ps st :
  let st1 := mkstate (rows st) (trace st ++ [page_request e d p]) in
  paginate u str_of e d (p :: ps) st
  = match read_response (u (trace st1)) with
    | Raise => (Raise, st1)
    | Ok data =>
        match page_table data with
        | Raise => (Raise, st1)
        | Ok table =>
            if truthy table then
              match py_iter table with
              | Raise => (Raise, st1)
              | Ok items =>
                  match add_items str_of items st1 with
                  | (Ok _, st2) => paginate u str_of e d ps st2
                  | (Raise, st2) => (Raise, st2)
                  end
              end
            else (Ok tt, st1)
        end
    end.
Proof.
  intros st1. cbn [paginate]. unfold bind, lift, ret.
  rewrite fetch_page_run. fold (page_request e d p). fold st1.
  change (trace st ++ [page_request e d p])%list with (trace st1).
  destruct (read_response (u (trace st1))) as [data|]; [|reflexivity].
  destruct (page_table data) as [table|]; [|reflexivity].
  destruct (truthy table); [|reflexivity]. cbn [negb].
  destruct (py_iter table) as [items|]; reflexivity.
Qed.

(** One page of the loop, from the state the page is fetched in: the
    pagination goes on to the next page exactly when the table was true and
    every item was appended. *)
Lemma paginate_cons e d p ps st :
  let st1 := mkstate (rows st) (trace st ++ [page_request e d p]) in
  (trace (paginate u str_of e d (p :: ps) st).2 = trace st1
   ∧ ∃ ds : list (gmap string json),
       rows (paginate u str_of e d (p :: ps) st).2
       = rows st ++ (enrich str_of <$> ds)
       ∧ ∀ x, x ∈ ds → served u (trace st1) x)
  ∨ (page_ends u (trace st1) = false
     ∧ ∃ ds : list (gmap string json),
         (∀ x, x ∈ ds → served u (trace st1) x)
         ∧ paginate u str_of e d (p :: ps) st
           = paginate u str_of e d ps
               (mkstate (rows st ++ (enrich str_of <$> ds)) (trace st1))).
Proof.
  intros st1. rewrite (paginate_unfold e d p ps st). fold st1.
  assert (Hnone : ∃ ds : list (gmap string json),
             rows st1 = rows st ++ (enrich str_of <$> ds)
             ∧ ∀ x, x ∈ ds → served u (trace st1) x).
  { exists []. split; [by rewrite app_nil_r | intros x Hx; inversion Hx]. }
  assert (Hrows1 : rows st1 = rows st) by reflexivity.
  clearbody st1.
  destruct (read_response (u (trace st1))) as [data|] eqn:Hresp;
    [|left; split; [reflexivity | exact Hnone]].
  destruct (page_table data) as [table|] eqn:Htab;
    [|left; split; [reflexivity | exact Hnone]].
  destruct (truthy table) eqn:Htruthy;
    [|left; split; [reflexivity | exact Hnone]].
  destruct (py_iter table) as [items|] eqn:Hiter;
    [|left; split; [reflexivity | exact Hnone]].
  pose proof (add_items_trace items st1) as Htr.
  destruct (add_items_rows items st1) as (ds & Hrows & Hin).
  rewrite Hrows1 in Hrows.
  assert (Hserved : ∀ x, x ∈ ds → served u (trace st1) x).
  { intros x Hx. apply Hin in Hx.
    destruct table; try discriminate Hiter.
    - injection Hiter as <-. apply list_elem_of_fmap in Hx as (c & Hc & _).
      discriminate Hc.
    - injection Hiter as <-. exists (trace st1), data, l. auto.
    - injection Hiter as <-. apply list_elem_of_fmap in Hx as (c & Hc & _).
      discriminate Hc. }
  destruct (add_items str_of items st1) as [[[]|] st2] eqn:Hadd;
    cbn [snd] in Htr, Hrows.
  - right. split.
    + unfold page_ends, served_table. by rewrite Hresp, Htab, Htruthy.
    + exists ds. split; [exact Hserved|].
      destruct st2 as [rs2 tr2]. cbn in Htr, Hrows. by subst.
  - left. split; [exact Htr|]. exists ds. auto.
Qed.

Lemma served_mono tr tr' x :
  served u tr x → tr `prefix_of` tr' → served u tr' x.
Proof.
  intros (h & data & items & Hh & Hrest) Hpre.
  exists h, data, items. split; [by etrans | exact Hrest].
Qed.

(** A run of the page loop over [ps]: it fetches the first [k] pages, every
    fetched page but the last had a table that was true, and the rows it
    appends are enriched rows of the tables it was served. *)
Lemma paginate_run e d ps :
  ∀ st, ∃ (k : nat) (ds : list (gmap string json)),
    (k ≤ length ps)%nat
    ∧ trace (paginate u str_of e d ps st).2
      = trace st ++ (page_request e d <$> take k ps)
    ∧ rows (paginate u str_of e d ps st).2
      = rows st ++ (enrich str_of <$> ds)
    ∧ (∀ x, x ∈ ds → served u (trace (paginate u str_of e d ps st).2) x)
    ∧ (∀ j, (1 ≤ j < k)%nat →
            page_ends u (trace st ++ (page_request e d <$> take j ps))
            = false).
Proof.
  induction ps as [|p ps IH]; intros st.
  - exists 0%nat, []. cbn. rewrite !app_nil_r.
    repeat split; try done; [intros x Hx; inversion Hx | lia].
  - destruct (paginate_cons e d p ps st)
      as [(Htr & ds & Hrows & Hs)|(Hgo & ds & Hs & Hstep)].
    + exists 1%nat, ds. cbn [length take fmap list_fmap].
      repeat split; try done; try lia.
      intros x Hx. rewrite Htr. by apply Hs.
    + cbn [trace] in Hgo, Hs, Hstep. rewrite Hstep.
      set (st2 := mkstate (rows st ++ (enrich str_of <$> ds))
                    (trace st ++ [page_request e d p])).
      destruct (IH st2) as (k & ds2 & Hk & Htr & Hrows & Hs2 & Hpages).
      exists (S k), (ds ++ ds2). cbn [length take].
      rewrite Htr, Hrows. cbn [rows trace st2].
      rewrite fmap_cons, fmap_app, <- !app_assoc. cbn [app].
      repeat split; try done; try lia.
      * intros x Hx.
        replace (trace st ++ page_request e d p
                 :: (page_request e d <$> take k ps))%list
          with (trace (paginate u str_of e d ps st2).2)
          by (rewrite Htr; cbn [trace st2]; by rewrite <- app_assoc).
        apply elem_of_app in Hx as [Hx|Hx]; [|by apply Hs2].
        eapply served_mono; [by apply Hs|].
        rewrite Htr. cbn [trace st2]. by apply prefix_app_r.
      * intros j Hj. destruct j as [|j]; [lia|].
        destruct j as [|j].
        -- cbn. exact Hgo.
        -- cbn [take fmap list_fmap].
           specialize (Hpages (S j)). cbn [trace st2] in Hpages.
           rewrite <- app_assoc in Hpages. apply Hpages. lia.
Qed.

Lemma take_seqZ m n k :
  (k ≤ Z.to_nat n)%nat → take k (seqZ m n) = seqZ m (Z.of_nat k).
Proof.
  intros Hk. unfold seqZ. rewrite <- fmap_take, take_seq, Nat2Z.id.
  by rewrite Nat.min_l.
Qed.

Lemma try_endpoint_unfold e d limit st :
  let st0 := mkstate (rows st) (trace st ++ [page_request e d 1]) in
  try_endpoint u str_of e d limit st
  = match read_response (u (trace st0)) with
    | Raise => (Ok false, st0)
    | Ok _ =>
        match paginate u str_of e d (seqZ 1 limit) st0 with
        | (Ok _, st') =>
            (Ok (match rows st' with [] => false | _ :: _ => true end), st')
        | (Raise, st') => (Ok false, st')
        end
    end.
Proof.
  intros st0. unfold try_endpoint, try_except, bind, get_rows, ret.
  rewrite fetch_page_run. fold (page_request e d 1). fold st0.
  change (trace st ++ [page_request e d 1])%list with (trace st0).
  destruct (read_response (u (trace st0))); [|reflexivity].
  destruct (paginate u str_of e d (seqZ 1 limit) st0) as [[[]|] st'];
    reflexivity.
Qed.

(** One turn of the endpoint loop: the endpoint receives the probe and then
    pages 1 to [k], every page before page [k] had a table that was true,
    and the rows appended are enriched rows of the tables served. *)
Lemma try_endpoint_run e d limit st :
  ∃ (k : nat) (ds : list (gmap string json)) (stop : bool),
    Z.of_nat k ≤ Z.max 0 limit
    ∧ (try_endpoint u str_of e d limit st).1 = Ok stop
    ∧ trace (try_endpoint u str_of e d limit st).2
      = trace st ++ segment e d k
    ∧ rows (try_endpoint u str_of e d limit st).2
      = rows st ++ (enrich str_of <$> ds)
    ∧ (∀ x, x ∈ ds →
            served u (trace (try_endpoint u str_of e d limit st).2) x)
    ∧ (∀ j, (1 ≤ j < k)%nat →
            page_ends u (trace st ++ segment e d j) = false).
Proof.
  rewrite (try_endpoint_unfold e d limit st). cbv zeta.
  set (st0 := mkstate (rows st) (trace st ++ [page_request e d 1])).
  destruct (read_response (u (trace st0))) as [data|].
  - destruct (paginate_run e d (seqZ 1 limit) st0)
      as (k & ds & Hk & Htr & Hrows & Hs & Hpages).
    rewrite length_seqZ in Hk.
    assert (Hseg : ∀ j, (j ≤ k)%nat →
              (trace st0 ++ (page_request e d <$> take j (seqZ 1 limit))
               = trace st ++ segment e d j)%list).
    { intros j Hj. rewrite take_seqZ by lia. unfold segment.
      cbn [trace st0]. by rewrite <- app_assoc. }
    rewrite Hseg in Htr by lia.
    exists k, ds.
    destruct (paginate u str_of e d (seqZ 1 limit) st0) as [[[]|] st'];
      cbn [fst snd] in *;
      eexists; (split; [lia|]); (split; [reflexivity|]);
      (split; [exact Htr|]); (split; [exact Hrows|]);
      (split; [exact Hs|]);
      intros j Hj; rewrite <- Hseg by lia; apply Hpages; lia.
  - exists 0%nat, [], false. cbn [fst snd]. unfold segment.
    rewrite seqZ_nil by lia. cbn [fmap list_fmap]. rewrite app_nil_r.
    repeat split; try done; try lia.
    intros x Hx. inversion Hx.
Qed.

(** The state [_gather_for_date] ends in, by the turns of its loop: the
    primary endpoint's turn, then the fallback's unless the first turn
    ended in the [break]. *)
Lemma gather_state_unfold d limit :
  let t1 := try_endpoint u str_of BSE_PRIMARY_URL d limit (mkstate [] []) in
  gather_state u str_of d limit
  = match t1.1 with
    | Ok true | Raise => t1.2
    | Ok false => (try_endpoint u str_of BSE_FALLBACK_URL d limit t1.2).2
    end.
Proof.
  intros t1. unfold gather_state, endpoint_chain.
  cbn [for_endpoints]. unfold bind. fold t1.
  destruct t1 as [[[]|] st1]; cbn [fst snd]; try reflexivity.
  destruct (try_endpoint u str_of BSE_FALLBACK_URL d limit st1)
    as [[[]|] st2]; reflexivity.
Qed.

(** A run of [_gather_for_date]: the requests are the primary endpoint's
    probe and pages 1 to [k1], then, when the fallback is tried, its probe
    and pages 1 to [k2]; no page before the last fetched one had an empty
    table; the rows returned are enriched rows of the tables served. *)
Lemma gather_run d limit :
  ∃ (k1 k2 : nat) (second : bool) (ds : list (gmap string json)),
    Z.of_nat k1 ≤ Z.max 0 limit
    ∧ Z.of_nat k2 ≤ Z.max 0 limit
    ∧ gather_trace u str_of d limit
      = segment BSE_PRIMARY_URL d k1
        ++ (if second then segment BSE_FALLBACK_URL d k2 else [])
    ∧ _gather_for_date u str_of d limit = enrich str_of <$> ds
    ∧ (∀ x, x ∈ ds → served u (gather_trace u str_of d limit) x)
    ∧ (∀ j, (1 ≤ j < k1)%nat →
            page_ends u (segment BSE_PRIMARY_URL d j) = false)
    ∧ (∀ j, second = true → (1 ≤ j < k2)%nat →
            page_ends u (segment BSE_PRIMARY_URL d k1
                         ++ segment BSE_FALLBACK_URL d j) = false).
Proof.
  unfold gather_trace, _gather_for_date.
  rewrite gather_state_unfold. cbv zeta.
  destruct (try_endpoint_run BSE_PRIMARY_URL d limit (mkstate [] []))
    as (k1 & ds1 & stop1 & Hk1 & Hstop1 & Htr1 & Hrows1 & Hs1 & Hp1).
  cbn [trace rows app] in Htr1, Hrows1, Hp1.
  rewrite Hstop1. destruct stop1.
  - exists k1, 0%nat, false, ds1. rewrite app_nil_r.
    repeat split; try done; try lia.
  - set (st1 := (try_endpoint u str_of BSE_PRIMARY_URL d limit
                   (mkstate [] [])).2) in *.
    destruct (try_endpoint_run BSE_FALLBACK_URL d limit st1)
      as (k2 & ds2 & stop2 & Hk2 & _ & Htr2 & Hrows2 & Hs2 & Hp2).
    exists k1, k2, true, (ds1 ++ ds2).
    rewrite Htr2, Hrows2, Htr1, Hrows1, fmap_app.
    repeat split; try done.
    + intros x Hx. rewrite <- Htr1, <- Htr2.
      apply elem_of_app in Hx as [Hx|Hx]; [|by apply Hs2].
      eapply served_mono; [by apply Hs1|].
      rewrite Htr2. by apply prefix_app_r.
    + intros j _ Hj. rewrite <- Htr1. by apply Hp2.
Qed.

Lemma pageno_page_request e d p : pageno (page_request e d p) = Some (JInt p).
Proof. unfold pageno, page_request, page_payload. cbn. apply lookup_insert_eq. Qed.

Lemma segment_urls e d k : Forall (λ r, req_url r = e) (segment e d k).
Proof.
  unfold segment. apply Forall_cons. split; [reflexivity|].
  apply Forall_fmap, Forall_true. reflexivity.
Qed.

Lemma segment_length e d k : length (segment e d k) = S k.
Proof.
  unfold segment. cbn [length]. by rewrite length_fmap, length_seqZ, Nat2Z.id.
Qed.

Lemma segment_take e d k j :
  (j ≤ k)%nat → take (S j) (segment e d k) = segment e d j.
Proof.
  intros Hj. unfold segment. cbn [take]. f_equal.
  rewrite <- fmap_take, take_seqZ by lia. reflexivity.
Qed.

(** A request inside a segment: it and its neighbours go to the segment's
    endpoint, and the history up to it is the segment of the pages before
    it. *)
Lemma segment_split e d k pre r post :
  segment e d k = pre ++ r :: post →
  req_url r = e
  ∧ (∀ r0, r0 ∈ pre → req_url r0 = e)
  ∧ (∀ r', r' ∈ post → req_url r' = e)
  ∧ pre ++ [r] = segment e d (length pre)
  ∧ (length pre ≤ k)%nat
  ∧ (length pre = k → post = []).
Proof.
  intros Heq.
  pose proof (segment_urls e d k) as Hall. rewrite Heq in Hall.
  apply Forall_app in Hall as [Hpre Hrest].
  apply Forall_cons in Hrest as [Hr Hpost].
  rewrite Forall_forall in Hpre, Hpost.
  pose proof (segment_length e d k) as Hlen.
  rewrite Heq, length_app in Hlen. cbn [length] in Hlen.
  repeat split; try done; try lia.
  - rewrite <- (segment_take e d k) by lia. rewrite Heq.
    replace (pre ++ r :: post)%list with ((pre ++ [r]) ++ post)%list
      by (by rewrite <- app_assoc).
    symmetry. apply take_app_length'. rewrite length_app. cbn. lia.
  - intros Hk. apply nil_length_inv. lia.
Qed.

Lemma segment_filter_same e d k :
  filter (λ r, req_url r = e) (segment e d k) = segment e d k.
Proof.
  pose proof (segment_urls e d k) as Hall.
  induction (segment e d k) as [|r l IH]; [reflexivity|].
  apply Forall_cons in Hall as [Hr Hl].
  rewrite filter_cons_True by done. by rewrite IH.
Qed.

Lemma segment_filter_other e e' d k :
  e ≠ e' → filter (λ r, req_url r = e') (segment e d k) = [].
Proof.
  intros Hne. pose proof (segment_urls e d k) as Hall.
  induction (segment e d k) as [|r l IH]; [reflexivity|].
  apply Forall_cons in Hall as [Hr Hl].
  rewrite filter_cons_False by congruence. by apply IH.
Qed.

Lemma segment_pages e d k :
  pageno <$> segment e d k
  = Some (JInt 1) :: ((λ p, Some (JInt p)) <$> seqZ 1 (Z.of_nat k)).
Proof.
  unfold segment. rewrite fmap_cons, pageno_page_request. f_equal.
  rewrite <- list_fmap_compose. apply list_fmap_ext.
  intros i p _. apply pageno_page_request.
Qed.

Lemma endpoints_differ : BSE_PRIMARY_URL ≠ BSE_FALLBACK_URL.
Proof. discriminate. Qed.

End Run.

Lemma try_endpoint_stop u str_of e d limit st :
  (try_endpoint u str_of e d limit st).1 = Ok true →
  rows (try_endpoint u str_of e d limit st).2 ≠ [].
Proof.
  rewrite (try_endpoint_unfold u str_of e d limit st). cbv zeta.
  destruct (read_response _); [|discriminate].
  destruct (paginate _ _ _ _ _ _) as [[[]|] st']; cbn [fst snd];
    [|discriminate].
  destruct (rows st'); [discriminate | done].
Qed.

(** ** The number of pages a turn fetches *)

Section Exact.
Variable u : upstream.
Variable str_of : json → string.

Lemma add_items_ok items :
  ∀ st, (add_items str_of items st).1 = Ok tt → forallb is_obj items = true.
Proof.
  induction items as [|item items IH]; intros st H; [reflexivity|].
  destruct item; try discriminate H.
  cbn [add_items] in H. unfold bind, append_row in H. cbn in H.
  cbn [forallb is_obj andb]. by eapply IH.
Qed.

(** The table of a page after which the page loop goes on is a list of
    dicts that is not empty. *)
Lemma table_goes_on table items st :
  truthy table = true → py_iter table = Ok items →
  (add_items str_of items st).1 = Ok tt →
  ∃ x l, table = JArr (x :: l) ∧ forallb is_obj (x :: l) = true.
Proof.
  intros Ht Hi Ha. apply add_items_ok in Ha.
  destruct table as [| | | |s|l|m]; try discriminate Hi.
  - injection Hi as <-. destruct s as [|c s]; [discriminate Ht|].
    discriminate Ha.
  - injection Hi as <-. destruct l as [|x l]; [discriminate Ht|]. eauto.
  - injection Hi as <-. cbn in Ht.
    destruct (map_to_list m) as [|[k v] l] eqn:E.
    + apply map_to_list_empty_iff in E. subst m.
      by rewrite bool_decide_eq_true_2 in Ht.
    + discriminate Ha.
Qed.

Lemma paginate_step e d p ps st :
  let st1 := mkstate (rows st) (trace st ++ [page_request e d p]) in
  if rich (u (trace st1))
  then ∃ st2, trace st2 = trace st1
              ∧ paginate u str_of e d (p :: ps) st
                = paginate u str_of e d ps st2
  else trace (paginate u str_of e d (p :: ps) st).2 = trace st1.
Proof.
  intros st1. rewrite (paginate_unfold u str_of e d p ps st). fold st1.
  unfold rich. clearbody st1.
  destruct (read_response (u (trace st1))) as [data|]; [|reflexivity].
  destruct (page_table data) as [table|]; [|reflexivity].
  destruct (truthy table) eqn:Ht.
  2:{ destruct table as [| | | | |[|x l]|]; try reflexivity. discriminate Ht. }
  destruct (py_iter table) as [items|] eqn:Hi.
  2:{ destruct table as [| | | | |[|x l]|]; try reflexivity; discriminate Hi. }
  pose proof (add_items_trace str_of items st1) as Htr.
  pose proof (table_goes_on table items st1 Ht Hi) as Hgo.
  destruct (add_items str_of items st1) as [[[]|] st2] eqn:Ha;
    cbn [fst snd] in *.
  - destruct (Hgo eq_refl) as (x & l & -> & Hall). rewrite Hall.
    exists st2. split; [exact Htr | reflexivity].
  - destruct table as [| | | | |[|x l]|]; try exact Htr.
    destruct (forallb is_obj (x :: l)) eqn:Hall; [|exact Htr].
    exfalso. destruct (all_objects _ Hall) as (ds & Hds).
    injection Hi as <-. rewrite Hds, add_items_all_dicts in Ha. discriminate.
Qed.

Lemma paginate_exact e d ps :
  ∀ st, ∃ k : nat,
    (k ≤ length ps)%nat
    ∧ trace (paginate u str_of e d ps st).2
      = trace st ++ (page_request e d <$> take k ps)
    ∧ (ps ≠ [] → (1 ≤ k)%nat)
    ∧ (∀ j, (1 ≤ j < k)%nat →
            rich (u (trace st ++ (page_request e d <$> take j ps))) = true)
    ∧ ((k < length ps)%nat →
       rich (u (trace st ++ (page_request e d <$> take k ps))) = false).
Proof.
  induction ps as [|p ps IH]; intros st.
  - exists 0%nat. cbn. rewrite app_nil_r. repeat split; try done; lia.
  - pose proof (paginate_step e d p ps st) as Hstep. cbv zeta in Hstep.
    cbn [trace] in Hstep.
    destruct (rich (u (trace st ++ [page_request e d p]))) eqn:Hr.
    + destruct Hstep as (st2 & Htr2 & ->).
      destruct (IH st2) as (k & Hk & Htr & _ & Hgo & Hstop).
      rewrite Htr2 in Htr, Hgo, Hstop.
      exists (S k). cbn [length take fmap list_fmap].
      split; [lia|]. split; [by rewrite Htr, <- app_assoc|].
      split; [lia|]. split.
      * intros j Hj. destruct j as [|[|j]]; [lia|exact Hr|].
        cbn [take fmap list_fmap].
        specialize (Hgo (S j)). rewrite <- app_assoc in Hgo.
        apply Hgo. lia.
      * intros Hlt. rewrite <- app_assoc in Hstop. apply Hstop. lia.
    + exists 1%nat. cbn [length take fmap list_fmap]. rewrite take_0.
      split; [lia|]. split; [exact Hstep|]. split; [lia|].
      split; [lia|]. intros _. exact Hr.
Qed.

Lemma try_endpoint_exact e d limit st :
  ∃ k : nat,
    trace (try_endpoint u str_of e d limit st).2 = trace st ++ segment e d k
    ∧ turn_pages u e d limit (trace st) k.
Proof.
  rewrite (try_endpoint_unfold u str_of e d limit st). cbv zeta.
  cbn [trace].
  assert (Hseg0 : segment e d 0 = [page_request e d 1]) by reflexivity.
  destruct (read_response (u (trace st ++ [page_request e d 1]))) as [data|]
    eqn:Hprobe.
  - destruct (paginate_exact e d (seqZ 1 limit)
                (mkstate (rows st) (trace st ++ [page_request e d 1])))
      as (k & Hk & Htr & Hpos & Hgo & Hstop).
    cbn [trace] in Htr, Hgo, Hstop. rewrite length_seqZ in Hk, Hstop.
    assert (Hseg : ∀ j, (j ≤ k)%nat →
              ((trace st ++ [page_request e d 1])
               ++ (page_request e d <$> take j (seqZ 1 limit))
               = trace st ++ segment e d j)%list).
    { intros j Hj. rewrite take_seqZ by lia. unfold segment.
      by rewrite <- app_assoc. }
    exists k. split.
    + rewrite <- Hseg by lia. rewrite <- Htr.
      by destruct (paginate u str_of e d (seqZ 1 limit) _) as [[[]|] st'].
    + split; [lia|]. destruct k as [|k].
      * intros Hlimit. exfalso.
        assert (seqZ 1 limit ≠ []) as Hne.
        { intros Hnil. apply (f_equal length) in Hnil.
          rewrite length_seqZ in Hnil. cbn in Hnil. lia. }
        specialize (Hpos Hne). lia.
      * rewrite Hseg0, Hprobe. split; [discriminate|]. split.
        -- intros j Hj. rewrite <- Hseg by lia. by apply Hgo.
        -- intros Hlt. rewrite <- Hseg by lia. apply Hstop. lia.
  - exists 0%nat. split; [reflexivity|]. split; [lia|].
    intros _. by rewrite Hseg0.
Qed.

(** The number of pages a turn fetches is fixed by the responses. *)
Lemma turn_pages_unique e d limit before k k' :
  turn_pages u e d limit before k → turn_pages u e d limit before k' →
  k = k'.
Proof.
  assert (H : ∀ k k', (k < k')%nat →
            turn_pages u e d limit before k →
            turn_pages u e d limit before k' → False).
  { clear k k'. intros k k' Hlt [Hk H] [Hk' H'].
    destruct k' as [|k']; [lia|]. destruct H' as (Hprobe & Hgo & _).
    destruct k as [|k].
    - apply Hprobe, H. lia.
    - destruct H as (_ & _ & Hstop).
      rewrite Hgo in Hstop by lia. discriminate Hstop. lia. }
  intros Hk Hk'.
  destruct (Nat.lt_trichotomy k k') as [Hlt|[->|Hlt]]; [|done|];
    exfalso; eauto.
Qed.

Lemma for_endpoints_returns chain d limit :
  ∀ st, (for_endpoints u str_of chain d limit st).1 = Ok tt.
Proof.
  induction chain as [|e chain IH]; intros st; [reflexivity|].
  cbn [for_endpoints]. unfold bind.
  destruct (try_endpoint_run u str_of e d limit st)
    as (k & ds & stop & _ & Hstop & _).
  destruct (try_endpoint u str_of e d limit st) as [r st'].
  cbn [fst] in Hstop. subst r. destruct stop; [reflexivity | apply IH].
Qed.

Lemma gather_result_ok d limit : gather_result u str_of d limit = Ok tt.
Proof. apply for_endpoints_returns. Qed.

Lemma gather_exact d limit :
  ∃ (k1 k2 : nat) (second : bool),
    gather_trace u str_of d limit
    = segment BSE_PRIMARY_URL d k1
      ++ (if second then segment BSE_FALLBACK_URL d k2 else [])
    ∧ turn_pages u BSE_PRIMARY_URL d limit [] k1
    ∧ (second = true →
       turn_pages u BSE_FALLBACK_URL d limit (segment BSE_PRIMARY_URL d k1) k2)
    ∧ (second = false → _gather_for_date u str_of d limit ≠ []).
Proof.
  unfold gather_trace, _gather_for_date.
  rewrite gather_state_unfold. cbv zeta.
  destruct (try_endpoint_exact BSE_PRIMARY_URL d limit (mkstate [] []))
    as (k1 & Htr1 & Hturn1).
  cbn [trace app] in Htr1, Hturn1.
  destruct (try_endpoint_run u str_of BSE_PRIMARY_URL d limit (mkstate [] []))
    as (k1' & ds1 & stop1 & _ & Hstop1 & _).
  pose proof (try_endpoint_stop u str_of BSE_PRIMARY_URL d limit
                (mkstate [] [])) as Hrows.
  rewrite Hstop1 in Hrows |- *. destruct stop1.
  - exists k1, 0%nat, false. rewrite app_nil_r.
    split; [exact Htr1|]. split; [exact Hturn1|].
    split; [discriminate|]. intros _. by apply Hrows.
  - destruct (try_endpoint_exact BSE_FALLBACK_URL d limit
                (try_endpoint u str_of BSE_PRIMARY_URL d limit
                   (mkstate [] [])).2) as (k2 & Htr2 & Hturn2).
    rewrite Htr1 in Htr2, Hturn2.
    exists k1, k2, true. split; [exact Htr2|]. split; [exact Hturn1|].
    split; [by intros _ | discriminate].
Qed.

End Exact.

(** ** Page numbers *)

(** C9 as stated fails: page 1 is requested twice from an endpoint whose
    pages are all empty, once as the probe and once as the first page. *)
Lemma C9_page_1_requested_twice :
  pages_requested BSE_PRIMARY_URL
    (gather_trace u_empty str_none "20240101" 50)
  = [Some (JInt 1); Some (JInt 1)]
  ∧ ¬ NoDup (pages_requested BSE_PRIMARY_URL
               (gather_trace u_empty str_none "20240101" 50)).
Proof.
  assert (E : pages_requested BSE_PRIMARY_URL
                (gather_trace u_empty str_none "20240101" 50)
              = [Some (JInt 1); Some (JInt 1)])
    by (vm_compute; reflexivity).
  split; [exact E|]. rewrite E. intros Hnd.
  apply NoDup_cons in Hnd as [Hnotin _]. apply Hnotin. by left.
Qed.

(** C9 (amended). The primary endpoint is asked for page 1 (the probe) and
    then for pages 1, 2, ..., [k1]; the fallback, when it is tried, for
    page 1 and then for pages 1, 2, ..., [k2]; nothing else is requested.
    The number of pages of a turn is fixed by the responses
    ([turn_pages], [turn_pages_unique]): none when the probe fails, else
    the number of the first page that holds no rows or is in error, or the
    page limit when there is no such page.  The fallback is left out only
    when rows are returned. *)
Theorem C9_probe_then_consecutive_pages u str_of d limit :
  ∃ (k1 k2 : nat) (second : bool),
    gather_trace u str_of d limit
    = segment BSE_PRIMARY_URL d k1
      ++ (if second then segment BSE_FALLBACK_URL d k2 else [])
    ∧ pages_requested BSE_PRIMARY_URL (gather_trace u str_of d limit)
      = Some (JInt 1) :: ((λ p, Some (JInt p)) <$> seqZ 1 (Z.of_nat k1))
    ∧ pages_requested BSE_FALLBACK_URL (gather_trace u str_of d limit)
      = (if second
         then Some (JInt 1) :: ((λ p, Some (JInt p)) <$> seqZ 1 (Z.of_nat k2))
         else [])
    ∧ turn_pages u BSE_PRIMARY_URL d limit [] k1
    ∧ (second = true →
       turn_pages u BSE_FALLBACK_URL d limit (segment BSE_PRIMARY_URL d k1) k2)
    ∧ (second = false → _gather_for_date u str_of d limit ≠ []).
Proof.
  destruct (gather_exact u str_of d limit)
    as (k1 & k2 & second & Htr & Hturn1 & Hturn2 & Hrows).
  exists k1, k2, second.
  split; [exact Htr|].
  unfold pages_requested. rewrite Htr, !filter_app.
  rewrite segment_filter_same.
  rewrite (segment_filter_other BSE_PRIMARY_URL BSE_FALLBACK_URL)
    by discriminate.
  split; [|split; [|exact (conj Hturn1 (conj Hturn2 Hrows))]].
  - replace (filter _ (if second then _ else _)) with (@nil request).
    + rewrite app_nil_r. apply segment_pages.
    + destruct second; [|reflexivity].
      symmetry. apply segment_filter_other. discriminate.
  - cbn [app]. destruct second; [|reflexivity].
    rewrite segment_filter_same. apply segment_pages.
Qed.

(** ** Stopping at an empty page *)

(** C6 as stated fails for the probe, whose response is not looked at:
    after a probe answered with an empty [Table], page 1 is requested again
    and page 2 after it. *)
Lemma C6_probe_response_ignored :
  gather_trace u_late str_none "20240101" 50
  = [page_request BSE_PRIMARY_URL "20240101" 1;
     page_request BSE_PRIMARY_URL "20240101" 1;
     page_request BSE_PRIMARY_URL "20240101" 2]
  ∧ page_ends u_late [page_request BSE_PRIMARY_URL "20240101" 1] = true.
Proof. split; vm_compute; reflexivity. Qed.

(** C6 (amended). When the response to a request of the page loop, that is
    to any request of an endpoint after its probe, has an empty or missing
    [Table] (and [table]), no later request goes to that endpoint. *)
Theorem C6_no_request_after_empty_page u str_of d limit pre r post :
  gather_trace u str_of d limit = pre ++ r :: post →
  (∃ r0, r0 ∈ pre ∧ req_url r0 = req_url r) →
  page_ends u (pre ++ [r]) = true →
  ∀ r', r' ∈ post → req_url r' ≠ req_url r.
Proof.
  intros Htrace (r0 & Hr0 & Hurl0) Hends.
  destruct (gather_run u str_of d limit)
    as (k1 & k2 & second & ds & _ & _ & Htr & _ & _ & Hp1 & Hp2).
  rewrite Htr in Htrace. clear Htr.
  replace (pre ++ r :: post)%list with ((pre ++ [r]) ++ post)%list
    in Htrace by (by rewrite <- app_assoc).
  apply app_eq_inv in Htrace as [(m & Hs1 & Hpost)|(m & Hpre & Hs2)].
  - (* the request belongs to the primary endpoint's turn *)
    rewrite <- app_assoc in Hs1. cbn [app] in Hs1.
    apply segment_split in Hs1 as (Hr & Hpre & _ & Hhist & Hle & Hlast).
    destruct (decide (length pre = k1)) as [Hk|Hk].
    + apply Hlast in Hk. subst m. cbn [app] in Hpost. subst post.
      intros r' Hr'. rewrite Hr. destruct second; [|inversion Hr'].
      pose proof (segment_urls BSE_FALLBACK_URL d k2) as Hall.
      rewrite Forall_forall in Hall. rewrite (Hall r' Hr'). discriminate.
    + destruct pre as [|p0 pre']; [inversion Hr0|].
      rewrite Hhist, Hp1 in Hends; [discriminate|].
      cbn [length] in *. lia.
  - (* the request belongs to the fallback's turn *)
    destruct second.
    2:{ (* the fallback was not tried: nothing follows the request *)
        symmetry in Hs2. apply app_eq_nil in Hs2 as [_ ->].
        intros r' Hr'. inversion Hr'. }
    destruct m as [|x m' _] using rev_ind.
    + (* the last request of the primary's turn *)
      rewrite app_nil_r in Hpre. cbn [app] in Hs2. subst post.
      pose proof (segment_urls BSE_PRIMARY_URL d k1) as Hall.
      rewrite <- Hpre, Forall_app, Forall_singleton in Hall.
      destruct Hall as [_ Hr].
      intros r' Hr'. rewrite Hr.
      pose proof (segment_urls BSE_FALLBACK_URL d k2) as Hall2.
      rewrite Forall_forall in Hall2. rewrite (Hall2 r' Hr'). discriminate.
    + rewrite app_assoc in Hpre. apply app_inj_tail in Hpre as [Hpre ->].
      rewrite <- app_assoc in Hs2. cbn [app] in Hs2.
      apply segment_split in Hs2 as (Hr & _ & _ & Hhist & Hle & Hlast).
      destruct (decide (length m' = k2)) as [Hk|Hk].
      * rewrite (Hlast Hk). intros r' Hr'. inversion Hr'.
      * destruct m' as [|p0 m''].
        -- (* the fallback's probe: nothing before it goes to the fallback *)
           rewrite app_nil_r in Hpre. subst pre.
           pose proof (segment_urls BSE_PRIMARY_URL d k1) as Hall.
           rewrite Forall_forall in Hall. rewrite (Hall r0 Hr0), Hr in Hurl0.
           discriminate.
        -- rewrite Hpre, <- app_assoc, Hhist, Hp2 in Hends;
             [discriminate | reflexivity |].
           cbn [length] in *. lia.
Qed.

Lemma C6_no_request_after_empty_page_witness :
  page_ends u_empty [page_request BSE_PRIMARY_URL "20240101" 1;
                     page_request BSE_PRIMARY_URL "20240101" 1] = true
  ∧ ∀ r', r' ∈ [page_request BSE_FALLBACK_URL "20240101" 1;
                page_request BSE_FALLBACK_URL "20240101" 1] →
          req_url r' ≠ BSE_PRIMARY_URL.
Proof.
  split; [vm_compute; reflexivity|].
  apply (C6_no_request_after_empty_page u_empty str_none "20240101" 50
           [page_request BSE_PRIMARY_URL "20240101" 1]
           (page_request BSE_PRIMARY_URL "20240101" 1)
           [page_request BSE_FALLBACK_URL "20240101" 1;
            page_request BSE_FALLBACK_URL "20240101" 1]).
  - vm_compute. reflexivity.
  - exists (page_request BSE_PRIMARY_URL "20240101" 1).
    split; [apply list_elem_of_here | reflexivity].
  - vm_compute. reflexivity.
Defined.

(** ** The [pdf_url] field *)

Lemma enrich_attachment str_of item s :
  attachment item = JStr s → s ≠ "" →
  enrich str_of item = <["pdf_url" := JStr (ATTACH_BASE +:+ s)]> item.
Proof.
  intros Ha Hs. unfold enrich. rewrite Ha. cbn [truthy].
  destruct (String.eqb_spec s "") as [->|_]; [done|]. reflexivity.
Qed.

Lemma enrich_no_attachment str_of item :
  truthy (attachment item) = false → enrich str_of item = item.
Proof. intros Ha. unfold enrich. by rewrite Ha. Qed.

(** A row without either attachment field has no attachment name. *)
Lemma attachment_missing (item : gmap string json) :
  item !! "ATTACHMENTNAME" = None → item !! "AttachmentName" = None →
  truthy (attachment item) = false.
Proof.
  intros H1 H2. unfold attachment, py_or, dict_get. by rewrite H1, H2.
Qed.

(** C5 as stated fails in its last part: a row the provider sends with a
    [pdf_url] key and no attachment field is returned with that key. *)
Lemma C5_upstream_pdf_url_kept :
  _gather_for_date (u_page1 [JObj row_with_pdf_url]) str_none "20240101" 1
  = [row_with_pdf_url]
  ∧ row_with_pdf_url !! "ATTACHMENTNAME" = None
  ∧ row_with_pdf_url !! "AttachmentName" = None
  ∧ row_with_pdf_url !! "pdf_url" = Some (JStr "from-upstream").
Proof. repeat split; vm_compute; reflexivity. Qed.

(** C5 (amended). Every row returned is a row [item] of a [Table] served
    by the provider, with this change only: when its attachment name (the
    field [ATTACHMENTNAME] if that is true, else [AttachmentName]) is a
    non-empty string [s], the key [pdf_url] is set to the base URL followed
    by [s]; when it has no attachment name, the row is returned as it was
    served. *)
Theorem C5_pdf_url_added u str_of d limit (r : gmap string json) :
  r ∈ _gather_for_date u str_of d limit →
  ∃ item : gmap string json,
    served u (gather_trace u str_of d limit) item
    ∧ (∀ s, attachment item = JStr s → s ≠ "" →
            r = <["pdf_url" :=
                   JStr ("https://www.bseindia.com/xml-data/corpfiling/AttachLive/"
                         +:+ s)]> item)
    ∧ (truthy (attachment item) = false → r = item).
Proof.
  intros Hr.
  destruct (gather_run u str_of d limit)
    as (k1 & k2 & second & ds & _ & _ & _ & Hrows & Hs & _).
  rewrite Hrows in Hr. apply list_elem_of_fmap in Hr as (item & -> & Hitem).
  exists item. split; [by apply Hs|]. split.
  - intros s Ha Hne. by apply enrich_attachment.
  - apply enrich_no_attachment.
Qed.

Lemma C5_pdf_url_added_witness :
  ∃ item : gmap string json,
    served (u_page1 [JObj row_with_attachment])
      (gather_trace (u_page1 [JObj row_with_attachment]) str_none
         "20240101" 1) item
    ∧ (∀ s, attachment item = JStr s → s ≠ "" →
            <["pdf_url" :=
               JStr "https://www.bseindia.com/xml-data/corpfiling/AttachLive/123.pdf"]>
              row_with_attachment
            = <["pdf_url" :=
                 JStr ("https://www.bseindia.com/xml-data/corpfiling/AttachLive/"
                       +:+ s)]> item)
    ∧ (truthy (attachment item) = false →
       <["pdf_url" :=
          JStr "https://www.bseindia.com/xml-data/corpfiling/AttachLive/123.pdf"]>
         row_with_attachment = item).
Proof.
  apply (C5_pdf_url_added (u_page1 [JObj row_with_attachment]) str_none
           "20240101" 1).
  vm_compute. apply list_elem_of_here.
Defined.

(** ** Text that can be encoded *)

Lemma ascii_no_surrogate s : ascii_only s = true → has_surrogate s = false.
Proof.
  unfold ascii_only. induction s as [|c s IH]; [reflexivity|].
  cbn [list_ascii_of_string forallb]. intros H.
  apply andb_true_iff in H as [Hc Hs]. apply Nat.ltb_lt in Hc.
  destruct s as [|c' rest]; [reflexivity|].
  change (has_surrogate (String c (String c' rest)))
    with (((nat_of_ascii c =? 237) && (160 <=? nat_of_ascii c')
           && (nat_of_ascii c' <=? 191))%nat
          || has_surrogate (String c' rest)).
  rewrite (IH Hs). destruct (Nat.eqb_spec (nat_of_ascii c) 237); [lia|].
  reflexivity.
Qed.

Lemma digit_char_ascii z :
  0 ≤ z ≤ 9 → (nat_of_ascii (digit_char z) <? 128)%nat = true.
Proof.
  intros Hz.
  assert (z = 0 ∨ z = 1 ∨ z = 2 ∨ z = 3 ∨ z = 4 ∨ z = 5 ∨ z = 6 ∨ z = 7
          ∨ z = 8 ∨ z = 9) as H by lia.
  repeat (destruct H as [->|H]; [reflexivity|]). by subst.
Qed.

Lemma mod10_range z : 0 ≤ z mod 10 ≤ 9.
Proof. pose proof (Z.mod_pos_bound z 10). lia. Qed.

Lemma isoformat_ascii d : ascii_only (isoformat d) = true.
Proof.
  unfold ascii_only, isoformat. rewrite list_ascii_of_string_of_list_ascii.
  unfold fmt4, fmt2. cbn [app forallb].
  rewrite !digit_char_ascii by apply mod10_range.
  reflexivity.
Qed.

Lemma encodable_obj (d : gmap string json) :
  encodable (JObj d) = true
  ↔ ∀ k v, d !! k = Some v → has_surrogate k = false ∧ encodable v = true.
Proof.
  change (encodable (JObj d))
    with (bool_decide
            (map_Forall (λ k (b : bool), has_surrogate k = false ∧ b = true)
               (encodable <$> d))).
  rewrite bool_decide_eq_true, map_Forall_lookup. split.
  - intros H k v Hk. apply (H k (encodable v)). by rewrite lookup_fmap, Hk.
  - intros H k b Hk. rewrite lookup_fmap in Hk.
    destruct (d !! k) as [v|] eqn:E; [|discriminate].
    injection Hk as <-. by apply H.
Qed.

(** The envelope can be encoded exactly when its rows can. *)
Lemma envelope_encodable d rs :
  encodable (envelope d rs) = encodable (JArr (JObj <$> rs)).
Proof.
  apply Bool.eq_true_iff_eq. unfold envelope. rewrite encodable_obj. split.
  - intros H. apply (H "rows").
    rewrite !lookup_insert_ne by discriminate. apply lookup_insert_eq.
  - intros H k v Hk.
    apply lookup_insert_Some in Hk as [[<- <-]|[_ Hk]].
    { split; [reflexivity|]. cbn [encodable].
      by rewrite ascii_no_surrogate by apply isoformat_ascii. }
    apply lookup_insert_Some in Hk as [[<- <-]|[_ Hk]]; [by split|].
    apply lookup_insert_Some in Hk as [[<- <-]|[_ Hk]]; [by split|].
    by rewrite lookup_empty in Hk.
Qed.

Lemma error_body_encodable message :
  encodable (error_body message) = negb (has_surrogate message).
Proof.
  apply Bool.eq_true_iff_eq. unfold error_body. rewrite encodable_obj. split.
  - intros H. apply (H "error" (JStr message)). apply lookup_singleton_eq.
  - intros H k v Hk. apply lookup_singleton_Some in Hk as [<- <-].
    by split.
Qed.

(** ** The query *)

Lemma parse_qs_fold fields name :
  ∀ acc : gmap string (list string),
    fold_left
      (λ parsed '(name, value),
         if String.eqb value "" then parsed
         else <[name := default [] (parsed !! name) ++ [value]]> parsed)
      fields acc !! name
    = match filter (λ v, v ≠ "") (snd <$> filter (λ f, f.1 = name) fields)
      with
      | [] => acc !! name
      | vs => Some (default [] (acc !! name) ++ vs)
      end.
Proof.
  induction fields as [|[n v] fields IH]; intros acc; [reflexivity|].
  cbn [fold_left]. rewrite IH. clear IH.
  destruct (String.eqb_spec v "") as [->|Hv].
  - destruct (decide (n = name)) as [->|Hn].
    + rewrite filter_cons_True by done. cbn [fmap list_fmap snd].
      by rewrite filter_cons_False by (intros H; by apply H).
    + by rewrite filter_cons_False by done.
  - destruct (decide (n = name)) as [->|Hn].
    + rewrite filter_cons_True by done. cbn [fmap list_fmap snd].
      rewrite filter_cons_True by done. rewrite lookup_insert_eq.
      cbn [default].
      destruct (filter _ (snd <$> filter _ fields)) as [|x l];
        [reflexivity|].
      unfold id. by rewrite <- app_assoc.
    + rewrite filter_cons_False by done.
      by rewrite lookup_insert_ne by done.
Qed.

(** The value [do_GET] reads for a parameter is the first value given for
    it that is not empty. *)
Lemma qs_first_parse_qs fields name :
  qs_first (parse_qs fields) name = first_value fields name.
Proof.
  unfold qs_first, parse_qs, first_value. rewrite parse_qs_fold.
  rewrite lookup_empty.
  by destruct (filter _ (snd <$> filter _ fields)).
Qed.

(** ** What the client reads *)

Lemma code_mkresponse c hs text w :
  code (mkresponse c hs text ++ w) = c.
Proof. reflexivity. Qed.

Lemma headers_mkresponse c hs text w :
  headers (mkresponse c hs text ++ w) = hs.
Proof.
  unfold mkresponse. cbn [app headers].
  induction hs as [|h hs IH]; [reflexivity|].
  rewrite fmap_cons. cbn [app headers]. by rewrite IH.
Qed.

Lemma body_mkresponse c hs text w :
  body (mkresponse c hs text ++ w)
  = match text with Some v => [WriteBody v] | None => [] end ++ w.
Proof.
  unfold mkresponse. cbn [app body].
  induction hs as [|h hs IH]; [reflexivity|].
  rewrite fmap_cons. cbn [app body]. exact IH.
Qed.

Lemma cons_app_nil {A} (l : list A) : l = l ++ [].
Proof. by rewrite app_nil_r. Qed.

Lemma respond_500_events L message :
  respond_500 L message
  = mkresponse 500 [CONTENT_TYPE]
      (if has_surrogate message then None else Some (error_body message)).
Proof.
  unfold respond_500, send. cbn [_ok_json].
  rewrite error_body_encodable. by destruct (has_surrogate message).
Qed.

Lemma respond_400_events L :
  respond_400 L
  = (mkresponse 400 [CONTENT_TYPE] (Some (error_body INVALID_DATE)), None).
Proof. reflexivity. Qed.

Lemma answer_encodable L d rs :
  encodable (JArr (JObj <$> rs)) = true →
  answer L d rs
  = mkresponse 200 (CONTENT_TYPE :: CORS_HEADERS) (Some (envelope d rs)).
Proof.
  intros H. unfold answer, respond_200, send. cbn [_ok_json].
  by rewrite envelope_encodable, H.
Qed.

Lemma answer_not_encodable L d rs :
  encodable (JArr (JObj <$> rs)) = false →
  answer L d rs
  = mkresponse 200 (CONTENT_TYPE :: CORS_HEADERS) None
    ++ respond_500 L (lib_encode_message L (envelope d rs)).
Proof.
  intros H. unfold answer, respond_200, send. cbn [_ok_json].
  by rewrite envelope_encodable, H.
Qed.

Lemma answer_code L d rs : code (answer L d rs) = 200.
Proof.
  destruct (encodable (JArr (JObj <$> rs))) eqn:E.
  - by rewrite answer_encodable.
  - by rewrite answer_not_encodable.
Qed.

Lemma answer_headers L d rs :
  headers (answer L d rs) = CONTENT_TYPE :: CORS_HEADERS.
Proof.
  destruct (encodable (JArr (JObj <$> rs))) eqn:E.
  - rewrite answer_encodable by done.
    rewrite (cons_app_nil (mkresponse _ _ _)). apply headers_mkresponse.
  - rewrite answer_not_encodable by done. apply headers_mkresponse.
Qed.

Lemma envelope_date d rs :
  body_field (mkresponse 200 (CONTENT_TYPE :: CORS_HEADERS)
                (Some (envelope d rs))) "date"
  = Some (JStr (isoformat d)).
Proof. unfold body_field, envelope. cbn. apply lookup_insert_eq. Qed.

Lemma envelope_count d rs :
  body_field (mkresponse 200 (CONTENT_TYPE :: CORS_HEADERS)
                (Some (envelope d rs))) "count"
  = Some (JInt (Z.of_nat (length rs))).
Proof.
  unfold body_field, envelope. cbn.
  rewrite lookup_insert_ne by discriminate. apply lookup_insert_eq.
Qed.

Lemma envelope_rows d rs :
  body_field (mkresponse 200 (CONTENT_TYPE :: CORS_HEADERS)
                (Some (envelope d rs))) "rows"
  = Some (JArr (JObj <$> rs)).
Proof.
  unfold body_field, envelope. cbn.
  rewrite !lookup_insert_ne by discriminate. apply lookup_insert_eq.
Qed.

(** After the headers of a 200 response whose body could not be encoded
    comes the 500 response: the body is no JSON object. *)
Lemma broken_body_field L message k :
  body_field (mkresponse 200 (CONTENT_TYPE :: CORS_HEADERS) None
              ++ respond_500 L message) k = None.
Proof.
  unfold body_field. rewrite body_mkresponse, respond_500_events.
  reflexivity.
Qed.

(** ** The cases of [do_GET] *)

Lemma serve_answer L u str_of qs d :
  serve L u str_of qs d
  = (respond_200 L d
       (_gather_for_date u str_of (_fmt_bse_date L d) (page_limit_of L qs)),
     gather_trace u str_of (_fmt_bse_date L d) (page_limit_of L qs)).
Proof. unfold serve. by rewrite gather_result_ok. Qed.

Lemma do_GET_resolved L u str_of now fields d :
  date_resolves L now (parse_qs fields) d →
  do_GET L u str_of now (Query fields)
  = (answer L d
       (_gather_for_date u str_of (_fmt_bse_date L d)
          (page_limit_of L (parse_qs fields))),
     gather_trace u str_of (_fmt_bse_date L d)
       (page_limit_of L (parse_qs fields))).
Proof.
  unfold do_GET, try_do_GET, answer.
  intros [(s & -> & ->)|[-> ->]]; rewrite serve_answer;
    by destruct (respond_200 _ _ _) as [w [m|]].
Qed.

Lemma page_limit_range L (qs : gmap string (list string)) :
  1 ≤ page_limit_of L qs ≤ 200.
Proof.
  unfold page_limit_of. destruct (qs_first qs "limit_pages") as [s|]; [|lia].
  destruct (lib_int L s) as [v|]; lia.
Qed.

(** The shapes of what [do_GET] writes: the answer for a date, the 400
    response, or a 500 response alone. *)
Lemma do_GET_cases L u str_of now t :
  (∃ fields d, t = Query fields ∧ date_resolves L now (parse_qs fields) d)
  ∨ do_GET L u str_of now t
    = (mkresponse 400 [CONTENT_TYPE] (Some (error_body INVALID_DATE)), [])
  ∨ ∃ message, do_GET L u str_of now t = (respond_500 L message, []).
Proof.
  destruct t as [message|fields].
  - right. right. by exists message.
  - unfold do_GET, try_do_GET, date_resolves.
    destruct (qs_first (parse_qs fields) "date") as [s|] eqn:Hq.
    + destruct (lib_fromisoformat L s) as [d|] eqn:Hd.
      * left. exists fields, d. split; [done|]. left. by exists s.
      * right. left. reflexivity.
    + destruct (_iso_today_india now) as [d|] eqn:Hd.
      * left. exists fields, d. split; [done|]. by right.
      * right. right. by exists overflow_message.
Qed.

(** ** A date that does not parse *)

(** C3 as stated fails for an empty value: [parse_qs] drops it, and the
    request is answered as one without the parameter, with 200 and the
    date of the clock. *)
Lemma C3_empty_date_is_200 :
  lib_fromisoformat sample_library "" = None
  ∧ do_GET sample_library u_down str_none noon (Query [("date", "")])
    = (mkresponse 200 (CONTENT_TYPE :: CORS_HEADERS)
         (Some (envelope (mkdate 2024 3 15) [])),
       [page_request BSE_PRIMARY_URL "20240315" 1;
        page_request BSE_FALLBACK_URL "20240315" 1]).
Proof. split; vm_compute; reflexivity. Qed.

(** C3 (amended). When the first value given for [date] that is not empty
    does not parse as a date, the handler answers 400 with the body
    [{"error": "Invalid date. Use YYYY-MM-DD."}] and sends no request
    upstream. *)
Theorem C3_invalid_date_400 L u str_of now fields s :
  first_value fields "date" = Some s →
  lib_fromisoformat L s = None →
  do_GET L u str_of now (Query fields)
  = (mkresponse 400 [CONTENT_TYPE]
       (Some (JObj {["error" := JStr "Invalid date. Use YYYY-MM-DD."]})),
     []).
Proof.
  intros Hs Hbad. rewrite <- qs_first_parse_qs in Hs.
  unfold do_GET, try_do_GET. by rewrite Hs, Hbad.
Qed.

Lemma C3_invalid_date_400_witness :
  do_GET sample_library u_empty str_none noon
    (Query [("date", ""); ("date", "2024-02-30"); ("date", "2024-03-01")])
  = (mkresponse 400 [CONTENT_TYPE]
       (Some (JObj {["error" := JStr "Invalid date. Use YYYY-MM-DD."]})),
     []).
Proof.
  apply (C3_invalid_date_400 sample_library u_empty str_none noon _
           "2024-02-30").
  - vm_compute. reflexivity.
  - reflexivity.
Defined.

(** ** The page limit *)

(** C4. Once the date is resolved, the rows and the requests of [do_GET]
    are those of [_gather_for_date] called with the page limit
    [max(1, min(200, v))] when the first value of [limit_pages] that is not
    empty reads as the integer [v], and with the page limit 50 when it does
    not read as an integer (no error is answered) or when there is no such
    value. *)
Theorem C4_limit_pages_clamped L u str_of now fields d :
  date_resolves L now (parse_qs fields) d →
  (∀ s v, first_value fields "limit_pages" = Some s →
          lib_int L s = Some v →
          fetched_with L u str_of now (Query fields) d
            (Z.max 1 (Z.min 200 v)))
  ∧ (∀ s, first_value fields "limit_pages" = Some s →
          lib_int L s = None →
          fetched_with L u str_of now (Query fields) d 50)
  ∧ (first_value fields "limit_pages" = None →
     fetched_with L u str_of now (Query fields) d 50).
Proof.
  intros Hd. unfold fetched_with.
  rewrite (do_GET_resolved _ _ _ _ _ _ Hd).
  rewrite <- qs_first_parse_qs. unfold page_limit_of.
  split; [|split].
  - intros s v -> ->. reflexivity.
  - intros s -> ->. reflexivity.
  - intros ->. reflexivity.
Qed.

Lemma C4_limit_pages_clamped_witness :
  fetched_with sample_library (u_always [JObj row_primary]) str_none noon
    (Query [("date", "2024-01-01"); ("limit_pages", "0")])
    (mkdate 2024 1 1) 1
  ∧ fetched_with sample_library (u_always [JObj row_primary]) str_none noon
      (Query [("date", "2024-01-01"); ("limit_pages", "9999")])
      (mkdate 2024 1 1) 200
  ∧ fetched_with sample_library (u_always [JObj row_primary]) str_none noon
      (Query [("date", "2024-01-01"); ("limit_pages", "abc")])
      (mkdate 2024 1 1) 50
  ∧ fetched_with sample_library (u_always [JObj row_primary]) str_none noon
      (Query [("date", "2024-01-01")]) (mkdate 2024 1 1) 50.
Proof.
  split; [|split; [|split]].
  - refine (proj1 (C4_limit_pages_clamped sample_library
                     (u_always [JObj row_primary]) str_none noon
                     [("date", "2024-01-01"); ("limit_pages", "0")]
                     (mkdate 2024 1 1) _) "0" 0 _ _).
    + left. exists "2024-01-01". split; vm_compute; reflexivity.
    + vm_compute. reflexivity.
    + reflexivity.
  - refine (proj1 (C4_limit_pages_clamped sample_library
                     (u_always [JObj row_primary]) str_none noon
                     [("date", "2024-01-01"); ("limit_pages", "9999")]
                     (mkdate 2024 1 1) _) "9999" 9999 _ _).
    + left. exists "2024-01-01". split; vm_compute; reflexivity.
    + vm_compute. reflexivity.
    + reflexivity.
  - refine (proj1 (proj2 (C4_limit_pages_clamped sample_library
                            (u_always [JObj row_primary]) str_none noon
                            [("date", "2024-01-01"); ("limit_pages", "abc")]
                            (mkdate 2024 1 1) _)) "abc" _ _).
    + left. exists "2024-01-01". split; vm_compute; reflexivity.
    + vm_compute. reflexivity.
    + reflexivity.
  - refine (proj2 (proj2 (C4_limit_pages_clamped sample_library
                            (u_always [JObj row_primary]) str_none noon
                            [("date", "2024-01-01")]
                            (mkdate 2024 1 1) _)) _).
    + left. exists "2024-01-01". split; vm_compute; reflexivity.
    + vm_compute. reflexivity.
Defined.

(** The page limit matters to what is fetched: with a provider whose every
    page holds a row, the limits 1 and 2 give different requests. *)
Example page_limit_shows :
  (do_GET sample_library (u_always [JObj row_primary]) str_none noon
     (Query [("date", "2024-01-01"); ("limit_pages", "0")])).2
  = segment BSE_PRIMARY_URL "20240101" 1
  ∧ (do_GET sample_library (u_always [JObj row_primary]) str_none noon
       (Query [("date", "2024-01-01"); ("limit_pages", "2")])).2
    = segment BSE_PRIMARY_URL "20240101" 2.
Proof. split; vm_compute; reflexivity. Qed.

(** ** No rows from either endpoint *)

(** When neither turn of the endpoint loop appends a row, no row is
    returned. *)
Lemma gather_no_rows u str_of d limit :
  endpoint_rows u str_of BSE_PRIMARY_URL d limit (mkstate [] []) = [] →
  endpoint_rows u str_of BSE_FALLBACK_URL d limit
    (try_endpoint u str_of BSE_PRIMARY_URL d limit (mkstate [] [])).2 = [] →
  _gather_for_date u str_of d limit = [].
Proof.
  unfold endpoint_rows, _gather_for_date. cbn [rows length drop].
  intros H1 H2. rewrite gather_state_unfold. cbv zeta.
  set (t1 := try_endpoint u str_of BSE_PRIMARY_URL d limit (mkstate [] []))
    in *.
  destruct (try_endpoint_run u str_of BSE_FALLBACK_URL d limit t1.2)
    as (k2 & ds2 & stop2 & _ & _ & _ & Hrows2 & _).
  rewrite Hrows2, drop_app_length in H2.
  change (rows t1.2 = []) in H1.
  destruct t1.1 as [[]|]; try exact H1.
  by rewrite Hrows2, H1, H2.
Qed.

(** C7. When the date resolves and neither endpoint yields a row, whatever
    the provider does (errors, timeouts, unreadable bodies, empty pages),
    the handler answers 200 with the envelope of no rows: [count] is 0 and
    [rows] is empty.  The exceptions of the fetch end in the [except] of
    line 106 ([for_endpoints_returns]); none reaches [do_GET]. *)
Theorem C7_no_rows_is_200 L u str_of now fields d :
  date_resolves L now (parse_qs fields) d →
  endpoint_rows u str_of BSE_PRIMARY_URL (_fmt_bse_date L d)
    (page_limit_of L (parse_qs fields)) (mkstate [] []) = [] →
  endpoint_rows u str_of BSE_FALLBACK_URL (_fmt_bse_date L d)
    (page_limit_of L (parse_qs fields))
    (try_endpoint u str_of BSE_PRIMARY_URL (_fmt_bse_date L d)
       (page_limit_of L (parse_qs fields)) (mkstate [] [])).2 = [] →
  (do_GET L u str_of now (Query fields)).1
  = mkresponse 200 (CONTENT_TYPE :: CORS_HEADERS) (Some (envelope d []))
  ∧ code (do_GET L u str_of now (Query fields)).1 = 200
  ∧ body_field (do_GET L u str_of now (Query fields)).1 "count"
    = Some (JInt 0)
  ∧ body_field (do_GET L u str_of now (Query fields)).1 "rows"
    = Some (JArr []).
Proof.
  intros Hd H1 H2. rewrite (do_GET_resolved _ _ _ _ _ _ Hd).
  rewrite (gather_no_rows _ _ _ _ H1 H2). cbn [fst].
  rewrite answer_encodable by reflexivity.
  split; [reflexivity|]. split; [reflexivity|].
  split; [apply envelope_count | apply envelope_rows].
Qed.

Lemma C7_no_rows_is_200_witness :
  (do_GET sample_library u_down str_none noon
     (Query [("date", "2024-01-01")])).1
  = mkresponse 200 (CONTENT_TYPE :: CORS_HEADERS)
      (Some (envelope (mkdate 2024 1 1) []))
  ∧ code (do_GET sample_library u_down str_none noon
            (Query [("date", "2024-01-01")])).1 = 200
  ∧ body_field (do_GET sample_library u_down str_none noon
                  (Query [("date", "2024-01-01")])).1 "count"
    = Some (JInt 0)
  ∧ body_field (do_GET sample_library u_down str_none noon
                  (Query [("date", "2024-01-01")])).1 "rows"
    = Some (JArr []).
Proof.
  apply (C7_no_rows_is_200 sample_library u_down str_none noon
           [("date", "2024-01-01")] (mkdate 2024 1 1)).
  - left. exists "2024-01-01". split; vm_compute; reflexivity.
  - vm_compute. reflexivity.
  - vm_compute. reflexivity.
Defined.

(** The same with a provider that answers every page with an empty
    [Table], and with no [date] parameter. *)
Example no_rows_empty_tables :
  (do_GET sample_library u_empty str_none noon (Query [])).1
  = mkresponse 200 (CONTENT_TYPE :: CORS_HEADERS)
      (Some (envelope (mkdate 2024 3 15) [])).
Proof. vm_compute. reflexivity. Qed.

(** ** The fields of the envelope, and a body that cannot be encoded *)

(** C8 (the code departs from it).  A [date] parameter of the form
    [YYYY-MM-DD] is echoed as the [date] field of the 200 response, and
    without the parameter the field is the date of the instant [utcnow()]
    plus 5 hours 30 minutes: both whenever the rows can be encoded.  With a
    row that holds a lone surrogate the headers of the 200 response are
    followed by a 500 response, and the body has no [date] field. *)
Theorem C8_date_field :
  (∀ L u str_of now fields s d,
      first_value fields "date" = Some s →
      parse_ymd s = Some d →
      encodable
        (JArr (JObj <$> _gather_for_date u str_of (_fmt_bse_date L d)
                          (page_limit_of L (parse_qs fields)))) = true →
      code (do_GET L u str_of now (Query fields)).1 = 200
      ∧ body_field (do_GET L u str_of now (Query fields)).1 "date"
        = Some (JStr s))
  ∧ (∀ L u str_of now fields ist,
      first_value fields "date" = None →
      datetime_add now (new_timedelta 0 5 30 0 0) = Some ist →
      encodable
        (JArr (JObj <$> _gather_for_date u str_of
                          (_fmt_bse_date L (date_of ist))
                          (page_limit_of L (parse_qs fields)))) = true →
      code (do_GET L u str_of now (Query fields)).1 = 200
      ∧ body_field (do_GET L u str_of now (Query fields)).1 "date"
        = Some (JStr (isoformat (date_of ist))))
  ∧ (do_GET sample_library (u_page1 [JObj row_surrogate]) str_none noon
       (Query [("date", "2024-02-29")])).1
    = mkresponse 200 (CONTENT_TYPE :: CORS_HEADERS) None
      ++ mkresponse 500 [CONTENT_TYPE]
           (Some (error_body SURROGATE_MESSAGE))
  ∧ body_field
      (do_GET sample_library (u_page1 [JObj row_surrogate]) str_none noon
         (Query [("date", "2024-02-29")])).1 "date" = None.
Proof.
  split; [|split; [|split; vm_compute; reflexivity]].
  - intros L u str_of now fields s d Hs Hd Henc.
    rewrite (do_GET_resolved L u str_of now fields d).
    2:{ left. exists s. rewrite qs_first_parse_qs.
        split; [exact Hs | by apply lib_fromisoformat_ymd]. }
    cbn [fst]. rewrite answer_encodable by exact Henc.
    split; [reflexivity|].
    by rewrite envelope_date, (isoformat_parse_ymd _ _ Hd).
  - intros L u str_of now fields ist Hs Hist Henc.
    rewrite (do_GET_resolved L u str_of now fields (date_of ist)).
    2:{ right. rewrite qs_first_parse_qs. split; [exact Hs|].
        unfold _iso_today_india. by rewrite Hist. }
    cbn [fst]. rewrite answer_encodable by exact Henc.
    split; [reflexivity | apply envelope_date].
Qed.

(** C10 (the code departs from it).  When the status is 200, either the
    body is the envelope, whose [count] is the length of its [rows], or the
    rows could not be encoded and the headers are followed by a 500
    response, so that the body has neither field; the second happens with
    a row that holds a lone surrogate. *)
Theorem C10_count_is_length :
  (∀ L u str_of now t,
      code (do_GET L u str_of now t).1 = 200 →
      (∃ rs : list (gmap string json),
          body_field (do_GET L u str_of now t).1 "rows"
          = Some (JArr (JObj <$> rs))
          ∧ body_field (do_GET L u str_of now t).1 "count"
            = Some (JInt (Z.of_nat (length rs))))
      ∨ (∃ d (rs : list (gmap string json)),
            encodable (JArr (JObj <$> rs)) = false
            ∧ (do_GET L u str_of now t).1
              = mkresponse 200 (CONTENT_TYPE :: CORS_HEADERS) None
                ++ respond_500 L (lib_encode_message L (envelope d rs))
            ∧ body_field (do_GET L u str_of now t).1 "rows" = None
            ∧ body_field (do_GET L u str_of now t).1 "count" = None))
  ∧ (do_GET sample_library (u_page1 [JObj row_surrogate]) str_none noon
       (Query [])).1
    = mkresponse 200 (CONTENT_TYPE :: CORS_HEADERS) None
      ++ mkresponse 500 [CONTENT_TYPE]
           (Some (error_body SURROGATE_MESSAGE))
  ∧ code (do_GET sample_library (u_page1 [JObj row_surrogate]) str_none
            noon (Query [])).1 = 200
  ∧ body_field
      (do_GET sample_library (u_page1 [JObj row_surrogate]) str_none noon
         (Query [])).1 "count" = None.
Proof.
  split; [|repeat split; vm_compute; reflexivity].
  intros L u str_of now t Hc.
  destruct (do_GET_cases L u str_of now t)
    as [(fields & d & -> & Hd)|[E|[message E]]].
  - rewrite (do_GET_resolved _ _ _ _ _ _ Hd). cbn [fst].
    set (rs := _gather_for_date _ _ _ _).
    destruct (encodable (JArr (JObj <$> rs))) eqn:Henc.
    + left. exists rs. rewrite answer_encodable by exact Henc.
      split; [apply envelope_rows | apply envelope_count].
    + right. exists d, rs. rewrite answer_not_encodable by exact Henc.
      split; [exact Henc|]. split; [reflexivity|].
      split; apply broken_body_field.
  - rewrite E in Hc. discriminate Hc.
  - rewrite E, respond_500_events in Hc. discriminate Hc.
Qed.

(** ** Rows of both endpoints in one answer *)

(** C1 (the code departs from it). The primary endpoint serves a row on
    page 1 and fails on page 2; its row stays in [rows], the fallback is
    tried, and its row is appended: the list returned holds rows of both
    endpoints. *)
Theorem C1_rows_of_both_endpoints :
  _gather_for_date u_mixed str_none "20240101" 2
  = [row_primary; row_fallback]
  ∧ gather_trace u_mixed str_none "20240101" 2
    = [page_request BSE_PRIMARY_URL "20240101" 1;
       page_request BSE_PRIMARY_URL "20240101" 1;
       page_request BSE_PRIMARY_URL "20240101" 2;
       page_request BSE_FALLBACK_URL "20240101" 1;
       page_request BSE_FALLBACK_URL "20240101" 1;
       page_request BSE_FALLBACK_URL "20240101" 2]
  ∧ read_response
      (u_mixed [page_request BSE_PRIMARY_URL "20240101" 1;
                page_request BSE_PRIMARY_URL "20240101" 1;
                page_request BSE_PRIMARY_URL "20240101" 2]) = Raise.
Proof. repeat split; vm_compute; reflexivity. Qed.

(** ** CORS headers *)

(** C2 (the code departs from it). The 200 response carries the three CORS
    headers after [Content-Type]; the 400 and 500 responses carry
    [Content-Type] alone. *)
Theorem C2_cors_on_200_only :
  (∀ L u str_of now t,
      headers (do_GET L u str_of now t).1
      = if code (do_GET L u str_of now t).1 =? 200
        then CONTENT_TYPE :: CORS_HEADERS
        else [CONTENT_TYPE])
  ∧ (do_GET sample_library u_empty str_none noon
       (Query [("date", "not-a-date")])).1
    = mkresponse 400 [("Content-Type", "application/json; charset=utf-8")]
        (Some (error_body INVALID_DATE))
  ∧ (do_GET sample_library u_empty str_none
       (mkdatetime 9999 12 31 20 0 0 0) (Query [])).1
    = mkresponse 500 [("Content-Type", "application/json; charset=utf-8")]
        (Some (error_body overflow_message)).
Proof.
  split; [|split; vm_compute; reflexivity].
  intros L u str_of now t.
  destruct (do_GET_cases L u str_of now t)
    as [(fields & d & -> & Hd)|[E|[message E]]].
  - rewrite (do_GET_resolved _ _ _ _ _ _ Hd). cbn [fst].
    by rewrite answer_headers, answer_code.
  - rewrite E. reflexivity.
  - rewrite E, respond_500_events. cbn [fst].
    rewrite (cons_app_nil (mkresponse _ _ _)).
    by rewrite headers_mkresponse, code_mkresponse.
Qed.

(** ** Further checks on sample providers *)

Example gather_adds_pdf_url :
  _gather_for_date (u_page1 [JObj row_with_attachment]) str_none
    "20240101" 1
  = [<["pdf_url" :=
        JStr "https://www.bseindia.com/xml-data/corpfiling/AttachLive/123.pdf"]>
       row_with_attachment].
Proof. vm_compute. reflexivity. Qed.

(** [ATTACHMENTNAME] is preferred to [AttachmentName] when both are set,
    and an empty [ATTACHMENTNAME] gives way to [AttachmentName]. *)
Example attachment_prefers_upper :
  attachment (<["ATTACHMENTNAME" := JStr "a.pdf"]> row_with_attachment)
  = JStr "a.pdf"
  ∧ attachment (<["ATTACHMENTNAME" := JStr ""]> row_with_attachment)
    = JStr "123.pdf".
Proof. split; vm_compute; reflexivity. Qed.

(** A table that is no list, or an item that is no dict, ends the turn of
    the endpoint as an exception does. *)
Example gather_table_not_a_list :
  _gather_for_date (u_page1 [JInt 7]) str_none "20240101" 3 = []
  ∧ gather_trace (u_page1 [JInt 7]) str_none "20240101" 3
    = [page_request BSE_PRIMARY_URL "20240101" 1;
       page_request BSE_PRIMARY_URL "20240101" 1;
       page_request BSE_FALLBACK_URL "20240101" 1;
       page_request BSE_FALLBACK_URL "20240101" 1].
Proof. split; vm_compute; reflexivity. Qed.

(** When the primary endpoint serves rows and then an empty page, the
    fallback is not tried. *)
Example gather_primary_wins :
  gather_trace (u_page1 [JObj row_primary]) str_none "20240101" 5
  = [page_request BSE_PRIMARY_URL "20240101" 1;
     page_request BSE_PRIMARY_URL "20240101" 1;
     page_request BSE_PRIMARY_URL "20240101" 2]
  ∧ _gather_for_date (u_page1 [JObj row_primary]) str_none "20240101" 5
    = [row_primary].
Proof. split; vm_compute; reflexivity. Qed.

(** A provider whose every response is an error or an empty page yields no
    row, so the handler answers 200 with [count] 0. *)
Lemma nothing_served_no_rows u str_of d limit :
  (∀ h, read_response (u h) = Raise ∨ page_ends u h = true) →
  _gather_for_date u str_of d limit = [].
Proof.
  intros Hu.
  destruct (gather_run u str_of d limit)
    as (k1 & k2 & second & ds & _ & _ & _ & Hrows & Hs & _).
  rewrite Hrows. destruct ds as [|x ds]; [reflexivity|]. exfalso.
  destruct (Hs x) as (h & data & items & _ & Hresp & Htab & Hin);
    [by left|].
  destruct (Hu h) as [Hraise|Hends]; [congruence|].
  unfold page_ends, served_table in Hends. rewrite Hresp, Htab in Hends.
  destruct items; [inversion Hin | discriminate Hends].
Qed.

(** * Further properties of the module *)

(** ** The requests of a run *)

Lemma segment_requests e d k r :
  r ∈ segment e d k →
  ∃ p, 1 ≤ p ≤ Z.max 1 (Z.of_nat k) ∧ r = page_request e d p.
Proof.
  unfold segment. intros Hr. apply elem_of_cons in Hr as [->|Hr].
  - exists 1. split; [lia | reflexivity].
  - apply list_elem_of_fmap in Hr as (p & -> & Hp).
    apply elem_of_seqZ in Hp. exists p. split; [lia | reflexivity].
Qed.

(** Every request of a run is a page request of the date to one of the two
    endpoints, for a page between 1 and the limit. *)
Lemma gather_trace_requests u str_of d limit r :
  r ∈ gather_trace u str_of d limit →
  ∃ e p, e ∈ endpoint_chain ∧ 1 ≤ p ≤ Z.max 1 limit
         ∧ r = page_request e d p.
Proof.
  destruct (gather_run u str_of d limit)
    as (k1 & k2 & second & ds & Hk1 & Hk2 & Htr & _).
  rewrite Htr. intros Hr. apply elem_of_app in Hr as [Hr|Hr].
  - apply segment_requests in Hr as (p & Hp & ->).
    exists BSE_PRIMARY_URL, p. split; [apply list_elem_of_here|].
    split; [lia | reflexivity].
  - destruct second; [|inversion Hr].
    apply segment_requests in Hr as (p & Hp & ->).
    exists BSE_FALLBACK_URL, p.
    split; [apply list_elem_of_further, list_elem_of_here|].
    split; [lia | reflexivity].
Qed.

(** X1. Every request [_gather_for_date] sends goes to one of the two
    endpoints, with the fixed headers, a timeout of 15 seconds, and the base
    payload of the date with a page number between 1 and the page limit. *)
Theorem gather_requests_uniform u str_of d limit r :
  r ∈ gather_trace u str_of d limit →
  (req_url r = BSE_PRIMARY_URL ∨ req_url r = BSE_FALLBACK_URL)
  ∧ req_timeout r = 15
  ∧ req_headers r = request_headers
  ∧ ∃ p, 1 ≤ p ≤ Z.max 1 limit
         ∧ req_params r = <["pageno" := JInt p]> (base_payload d).
Proof.
  intros Hr.
  apply gather_trace_requests in Hr as (e & p & He & Hp & ->).
  cbn [req_url req_timeout req_headers req_params page_request].
  split.
  - apply elem_of_cons in He as [->|He]; [by left|].
    apply elem_of_cons in He as [->|He]; [by right | inversion He].
  - repeat split. exists p. split; [exact Hp | reflexivity].
Qed.

Lemma gather_requests_uniform_witness :
  (req_url (page_request BSE_FALLBACK_URL "20240101" 1) = BSE_PRIMARY_URL
   ∨ req_url (page_request BSE_FALLBACK_URL "20240101" 1) = BSE_FALLBACK_URL)
  ∧ req_timeout (page_request BSE_FALLBACK_URL "20240101" 1) = 15
  ∧ req_headers (page_request BSE_FALLBACK_URL "20240101" 1)
    = request_headers
  ∧ ∃ p, 1 ≤ p ≤ Z.max 1 50
         ∧ req_params (page_request BSE_FALLBACK_URL "20240101" 1)
           = <["pageno" := JInt p]> (base_payload "20240101").
Proof.
  apply (gather_requests_uniform u_down str_none "20240101" 50).
  vm_compute. apply list_elem_of_further, list_elem_of_here.
Defined.

Lemma gather_trace_length u str_of d limit :
  (1 ≤ length (gather_trace u str_of d limit) ≤ 2 * (1 + Z.to_nat limit))%nat.
Proof.
  destruct (gather_run u str_of d limit)
    as (k1 & k2 & second & ds & Hk1 & Hk2 & Htr & _).
  rewrite Htr, length_app, segment_length.
  destruct second; [rewrite segment_length | cbn [length]]; lia.
Qed.

(** X2. The first request of [_gather_for_date] is the probe of page 1 of
    the primary endpoint, and it sends at most two requests more than twice
    the page limit. *)
Theorem gather_request_bounds u str_of d limit :
  head (gather_trace u str_of d limit) = Some (page_request BSE_PRIMARY_URL d 1)
  ∧ (1 ≤ length (gather_trace u str_of d limit)
       ≤ 2 * (1 + Z.to_nat limit))%nat.
Proof.
  split; [|apply gather_trace_length].
  destruct (gather_run u str_of d limit)
    as (k1 & k2 & second & ds & _ & _ & Htr & _).
  by rewrite Htr.
Qed.

(** X3. The page limit [do_GET] passes on lies between 1 and 200, and
    one call of [do_GET] sends at most 402 requests upstream. *)
Theorem do_GET_request_budget L u str_of now t :
  (∀ qs : gmap string (list string), 1 ≤ page_limit_of L qs ≤ 200)
  ∧ (length (do_GET L u str_of now t).2 ≤ 402)%nat.
Proof.
  split; [apply page_limit_range|].
  destruct (do_GET_cases L u str_of now t)
    as [(fields & d & -> & Hd)|[E|[message E]]];
    [|rewrite E; cbn; lia..].
  rewrite (do_GET_resolved _ _ _ _ _ _ Hd). cbn [snd].
  pose proof (gather_trace_length u str_of (_fmt_bse_date L d)
                (page_limit_of L (parse_qs fields))) as Hlen.
  pose proof (page_limit_range L (parse_qs fields)). lia.
Qed.

(** X5. [do_GET] sends a request upstream exactly when the status it
    sends is 200. *)
Theorem upstream_contacted_iff_200 L u str_of now t :
  (do_GET L u str_of now t).2 ≠ []
  ↔ code (do_GET L u str_of now t).1 = 200.
Proof.
  destruct (do_GET_cases L u str_of now t)
    as [(fields & d & -> & Hd)|[E|[message E]]].
  - rewrite (do_GET_resolved _ _ _ _ _ _ Hd). cbn [fst snd].
    rewrite answer_code. split; [reflexivity|]. intros _.
    pose proof (gather_trace_length u str_of (_fmt_bse_date L d)
                  (page_limit_of L (parse_qs fields))) as Hlen.
    intros Hnil. rewrite Hnil in Hlen. cbn in Hlen. lia.
  - rewrite E. cbn. split; [congruence | discriminate].
  - rewrite E, respond_500_events. cbn. split; [congruence | discriminate].
Qed.

(** X6. The requests of [_gather_for_date] are requests to the primary
    endpoint, at least one, followed by the requests to the fallback: the
    primary is never asked again once the fallback was. *)
Theorem primary_before_fallback u str_of d limit :
  ∃ to_primary to_fallback,
    gather_trace u str_of d limit = to_primary ++ to_fallback
    ∧ Forall (λ r, req_url r = BSE_PRIMARY_URL) to_primary
    ∧ Forall (λ r, req_url r = BSE_FALLBACK_URL) to_fallback
    ∧ to_primary ≠ [].
Proof.
  destruct (gather_run u str_of d limit)
    as (k1 & k2 & second & ds & _ & _ & Htr & _).
  exists (segment BSE_PRIMARY_URL d k1),
         (if second then segment BSE_FALLBACK_URL d k2 else []).
  split; [exact Htr|]. split; [apply segment_urls|]. split.
  - destruct second; [apply segment_urls | apply Forall_nil_2].
  - discriminate.
Qed.

Lemma try_endpoint_probe_fails u str_of e d limit st :
  read_response (u (trace st ++ [page_request e d 1])) = Raise →
  try_endpoint u str_of e d limit st
  = (Ok false, mkstate (rows st) (trace st ++ [page_request e d 1])).
Proof.
  intros H. rewrite (try_endpoint_unfold u str_of e d limit st). cbv zeta.
  cbn [trace]. by rewrite H.
Qed.

(** X7. When the probe of the primary endpoint fails, the primary gets no
    further request and the fallback is tried next. *)
Theorem probe_failure_falls_back u str_of d limit :
  read_response (u [page_request BSE_PRIMARY_URL d 1]) = Raise →
  ∃ k : nat,
    Z.of_nat k ≤ Z.max 0 limit
    ∧ gather_trace u str_of d limit
      = page_request BSE_PRIMARY_URL d 1 :: segment BSE_FALLBACK_URL d k.
Proof.
  intros Hfail. unfold gather_trace. rewrite gather_state_unfold. cbv zeta.
  rewrite (try_endpoint_probe_fails u str_of BSE_PRIMARY_URL d limit
             (mkstate [] []) Hfail).
  cbn [fst snd app trace rows].
  destruct (try_endpoint_run u str_of BSE_FALLBACK_URL d limit
              (mkstate [] [page_request BSE_PRIMARY_URL d 1]))
    as (k & ds & stop & Hk & _ & Htr & _).
  exists k. split; [exact Hk|]. exact Htr.
Qed.

Lemma probe_failure_falls_back_witness :
  ∃ k : nat,
    Z.of_nat k ≤ Z.max 0 50
    ∧ gather_trace u_down str_none "20240101" 50
      = page_request BSE_PRIMARY_URL "20240101" 1
        :: segment BSE_FALLBACK_URL "20240101" k.
Proof.
  apply (probe_failure_falls_back u_down str_none "20240101" 50).
  reflexivity.
Defined.

(** X8. [_gather_for_date] returns no row only after it has asked the
    fallback endpoint too. *)
Theorem empty_result_after_fallback u str_of d limit :
  _gather_for_date u str_of d limit = [] →
  page_request BSE_FALLBACK_URL d 1 ∈ gather_trace u str_of d limit.
Proof.
  unfold _gather_for_date, gather_trace. rewrite gather_state_unfold.
  cbv zeta.
  destruct (try_endpoint_run u str_of BSE_PRIMARY_URL d limit (mkstate [] []))
    as (k1 & ds1 & stop1 & _ & Hstop1 & _).
  pose proof (try_endpoint_stop u str_of BSE_PRIMARY_URL d limit
                (mkstate [] [])) as Hrows.
  rewrite Hstop1 in Hrows |- *. destruct stop1.
  - intros Hnil. by destruct Hrows.
  - intros _.
    destruct (try_endpoint_run u str_of BSE_FALLBACK_URL d limit
                (try_endpoint u str_of BSE_PRIMARY_URL d limit
                   (mkstate [] [])).2)
      as (k2 & ds2 & stop2 & _ & _ & Htr & _).
    rewrite Htr. apply elem_of_app. right. apply list_elem_of_here.
Qed.

Lemma empty_result_after_fallback_witness :
  page_request BSE_FALLBACK_URL "20240101" 1
  ∈ gather_trace u_empty str_none "20240101" 50.
Proof.
  apply (empty_result_after_fallback u_empty str_none "20240101" 50).
  vm_compute. reflexivity.
Defined.

(** X9. The loop over the items of a table appends the enriched rows in
    the order of the table and sends no request; at an item that is no dict
    it raises, and the rows before that item stay appended. *)
Theorem add_items_appends_in_order str_of
    (ds : list (gmap string json)) st :
  add_items str_of (JObj <$> ds) st
  = (Ok tt, mkstate (rows st ++ (enrich str_of <$> ds)) (trace st))
  ∧ ∀ bad rest,
      is_obj bad = false →
      add_items str_of ((JObj <$> ds) ++ bad :: rest) st
      = (Raise, mkstate (rows st ++ (enrich str_of <$> ds)) (trace st)).
Proof.
  split; [apply add_items_all_dicts|].
  intros bad rest Hbad. by apply add_items_non_dict.
Qed.

Lemma add_items_appends_in_order_witness :
  add_items str_none
    ((JObj <$> [row_primary]) ++ JInt 7 :: [JObj row_fallback])
    (mkstate [] [])
  = (Raise, mkstate ([] ++ (enrich str_none <$> [row_primary])) []).
Proof.
  apply (proj2 (add_items_appends_in_order str_none [row_primary]
                  (mkstate [] []))
           (JInt 7) [JObj row_fallback]).
  reflexivity.
Defined.

Lemma attachment_enrich str_of item :
  attachment (enrich str_of item) = attachment item.
Proof.
  unfold enrich. destruct (truthy (attachment item)); [|reflexivity].
  unfold attachment, dict_get.
  by rewrite !lookup_insert_ne by discriminate.
Qed.

(** X10. Enriching a row changes no field other than [pdf_url], leaves the
    attachment name as it was, and is idempotent. *)
Theorem enrich_touches_pdf_url_only str_of (item : gmap string json) :
  delete "pdf_url" (enrich str_of item) = delete "pdf_url" item
  ∧ enrich str_of (enrich str_of item) = enrich str_of item
  ∧ attachment (enrich str_of item) = attachment item.
Proof.
  split; [|split; [|apply attachment_enrich]].
  - unfold enrich. destruct (truthy (attachment item)); [|reflexivity].
    apply delete_insert_eq.
  - unfold enrich at 1. rewrite attachment_enrich.
    unfold enrich. destruct (truthy (attachment item)); [|reflexivity].
    apply insert_insert_eq.
Qed.

Section Clean.

Variable u : upstream.
Variable str_of : json → string.

Lemma paginate_well_formed e d ps :
  (∀ h, h ≠ [] → well_formed (u h) = true) →
  ∀ st, (paginate u str_of e d ps st).1 = Ok tt.
Proof.
  intros Hwf. induction ps as [|p ps IH]; intros st; [reflexivity|].
  rewrite paginate_unfold. cbv zeta. cbn [trace].
  specialize (Hwf (trace st ++ [page_request e d p]) (snoc_not_nil _ _)).
  unfold well_formed in Hwf.
  destruct (read_response _) as [data|]; [|discriminate].
  destruct (page_table data) as [table|]; [|discriminate].
  destruct (truthy table) eqn:Ht; [|reflexivity].
  destruct table; try (rewrite ?Ht in Hwf; cbn in Ht, Hwf; congruence).
  destruct (all_objects _ Hwf) as (ds & ->).
  cbn [py_iter]. rewrite add_items_all_dicts. apply IH.
Qed.

Lemma try_endpoint_well_formed e d limit st :
  (∀ h, h ≠ [] → well_formed (u h) = true) →
  (try_endpoint u str_of e d limit st).1
  = Ok (match rows (try_endpoint u str_of e d limit st).2 with
        | [] => false
        | _ :: _ => true
        end).
Proof.
  intros Hwf. rewrite (try_endpoint_unfold u str_of e d limit st). cbv zeta.
  cbn [trace].
  pose proof (Hwf (trace st ++ [page_request e d 1]) (snoc_not_nil _ _))
    as Hprobe.
  unfold well_formed in Hprobe.
  destruct (read_response _) as [data|]; [|discriminate].
  pose proof (paginate_well_formed e d (seqZ 1 limit) Hwf
                (mkstate (rows st) (trace st ++ [page_request e d 1])))
    as Hok.
  destruct (paginate _ _ _ _ _ _) as [[[]|] st']; cbn [fst snd] in *;
    [reflexivity | discriminate].
Qed.

End Clean.

(** X11. When every response is well formed, the rows returned are those
    of one endpoint: the primary's, with no request sent to the fallback,
    when the primary yields a row, and else the fallback's. *)
Theorem single_endpoint_when_well_formed u str_of d limit :
  (∀ h, h ≠ [] → well_formed (u h) = true) →
  (endpoint_rows u str_of BSE_PRIMARY_URL d limit (mkstate [] []) ≠ []
   ∧ _gather_for_date u str_of d limit
     = endpoint_rows u str_of BSE_PRIMARY_URL d limit (mkstate [] [])
   ∧ Forall (λ r, req_url r = BSE_PRIMARY_URL)
       (gather_trace u str_of d limit))
  ∨ (endpoint_rows u str_of BSE_PRIMARY_URL d limit (mkstate [] []) = []
     ∧ _gather_for_date u str_of d limit
       = endpoint_rows u str_of BSE_FALLBACK_URL d limit
           (try_endpoint u str_of BSE_PRIMARY_URL d limit
              (mkstate [] [])).2).
Proof.
  intros Hwf. unfold endpoint_rows, _gather_for_date, gather_trace.
  cbn [rows length drop]. rewrite gather_state_unfold. cbv zeta.
  rewrite (try_endpoint_well_formed u str_of BSE_PRIMARY_URL d limit
             (mkstate [] []) Hwf).
  destruct (try_endpoint_run u str_of BSE_PRIMARY_URL d limit (mkstate [] []))
    as (k1 & ds1 & stop1 & _ & _ & Htr1 & _).
  set (t1 := try_endpoint u str_of BSE_PRIMARY_URL d limit (mkstate [] []))
    in *.
  destruct (rows t1.2) as [|x xs] eqn:Hrows.
  - right. split; [reflexivity|]. by rewrite drop_0.
  - left. split; [discriminate|]. split; [by rewrite Hrows|].
    rewrite Htr1. apply segment_urls.
Qed.

Lemma table_response_table items :
  read_response (table_response items) = Ok (JObj {["Table" := JArr items]})
  ∧ page_table (JObj {["Table" := JArr items]}) = Ok (JArr items).
Proof. split; [reflexivity|]. destruct items; reflexivity. Qed.

Lemma table_response_well_formed ds :
  well_formed (table_response (JObj <$> ds)) = true.
Proof.
  unfold well_formed.
  destruct (table_response_table (JObj <$> ds)) as [-> ->].
  induction ds as [|x ds IH]; [reflexivity | exact IH].
Qed.

Lemma u_page1_well_formed ds :
  ∀ h, h ≠ [] → well_formed (u_page1 (JObj <$> ds) h) = true.
Proof.
  intros h Hh. unfold u_page1.
  destruct (last h) as [r|] eqn:Hlast; [|by apply last_None in Hlast].
  destruct (page_is r 1).
  - apply table_response_well_formed.
  - apply (table_response_well_formed []).
Qed.

Lemma single_endpoint_when_well_formed_witness :
  (endpoint_rows (u_page1 (JObj <$> [row_primary])) str_none
     BSE_PRIMARY_URL "20240101" 5 (mkstate [] []) ≠ []
   ∧ _gather_for_date (u_page1 (JObj <$> [row_primary])) str_none
       "20240101" 5
     = endpoint_rows (u_page1 (JObj <$> [row_primary])) str_none
         BSE_PRIMARY_URL "20240101" 5 (mkstate [] [])
   ∧ Forall (λ r, req_url r = BSE_PRIMARY_URL)
       (gather_trace (u_page1 (JObj <$> [row_primary])) str_none
          "20240101" 5))
  ∨ (endpoint_rows (u_page1 (JObj <$> [row_primary])) str_none
       BSE_PRIMARY_URL "20240101" 5 (mkstate [] []) = []
     ∧ _gather_for_date (u_page1 (JObj <$> [row_primary])) str_none
         "20240101" 5
       = endpoint_rows (u_page1 (JObj <$> [row_primary])) str_none
           BSE_FALLBACK_URL "20240101" 5
           (try_endpoint (u_page1 (JObj <$> [row_primary])) str_none
              BSE_PRIMARY_URL "20240101" 5 (mkstate [] [])).2).
Proof.
  apply (single_endpoint_when_well_formed
           (u_page1 (JObj <$> [row_primary])) str_none "20240101" 5).
  apply u_page1_well_formed.
Defined.

Section Rich.

Variable u : upstream.
Variable str_of : json → string.
Hypothesis Hrich : ∀ h, h ≠ [] → rich (u h) = true.

Lemma paginate_rich e d ps :
  ∀ st,
    (paginate u str_of e d ps st).1 = Ok tt
    ∧ trace (paginate u str_of e d ps st).2
      = trace st ++ (page_request e d <$> ps)
    ∧ (length (rows st) + length ps
       ≤ length (rows (paginate u str_of e d ps st).2))%nat.
Proof.
  induction ps as [|p ps IH]; intros st.
  - cbn. rewrite app_nil_r. repeat split. lia.
  - rewrite paginate_unfold. cbv zeta. cbn [trace].
    pose proof (Hrich (trace st ++ [page_request e d p]) (snoc_not_nil _ _))
      as Hp.
    unfold rich in Hp.
    destruct (read_response _) as [data|]; [|discriminate].
    destruct (page_table data) as [[| | | | |[|item items]|]|];
      try discriminate.
    destruct (all_objects _ Hp) as (ds & Hds). rewrite Hds.
    assert (Hlen : (1 ≤ length ds)%nat).
    { destruct ds; [discriminate Hds | cbn; lia]. }
    assert (Ht : truthy (JArr (JObj <$> ds)) = true).
    { rewrite <- Hds. reflexivity. }
    rewrite Ht. cbn [py_iter]. rewrite add_items_all_dicts.
    cbn [rows trace].
    destruct (IH (mkstate (rows st ++ (enrich str_of <$> ds))
                    (trace st ++ [page_request e d p])))
      as (Hok & Htr & Hrows).
    cbn [rows trace] in Htr, Hrows.
    rewrite length_app, length_fmap in Hrows.
    split; [exact Hok|]. split.
    + rewrite Htr, <- app_assoc. reflexivity.
    + cbn [length]. lia.
Qed.

End Rich.

(** X12. When every page holds rows, exactly [page_limit] pages are
    fetched from the primary endpoint after the probe, the fallback is not
    asked, and at least one row per page is returned. *)
Theorem full_pagination_when_rich u str_of d limit :
  (∀ h, h ≠ [] → rich (u h) = true) →
  1 ≤ limit →
  gather_trace u str_of d limit
  = segment BSE_PRIMARY_URL d (Z.to_nat limit)
  ∧ (Z.to_nat limit ≤ length (_gather_for_date u str_of d limit))%nat.
Proof.
  intros Hrich Hlimit. unfold gather_trace, _gather_for_date.
  rewrite gather_state_unfold. cbv zeta.
  rewrite (try_endpoint_unfold u str_of BSE_PRIMARY_URL d limit). cbv zeta.
  cbn [trace rows app].
  pose proof (Hrich [page_request BSE_PRIMARY_URL d 1]) as Hprobe.
  unfold rich in Hprobe.
  destruct (read_response _) as [data|]; [|by discriminate Hprobe].
  destruct (paginate_rich u str_of Hrich BSE_PRIMARY_URL d (seqZ 1 limit)
              (mkstate [] [page_request BSE_PRIMARY_URL d 1]))
    as (Hok & Htr & Hrows).
  cbn [rows trace length] in Htr, Hrows. rewrite length_seqZ in Hrows.
  destruct (paginate _ _ _ _ _ _) as [[[]|] st']; cbn [fst snd] in *;
    [|discriminate].
  destruct (rows st') as [|x xs] eqn:Hst; [cbn in Hrows; lia|].
  cbn [fst snd]. rewrite Hst. split; [|exact Hrows].
  rewrite Htr. unfold segment. by rewrite Z2Nat.id by lia.
Qed.

Lemma full_pagination_when_rich_witness :
  gather_trace (u_always [JObj row_primary]) str_none "20240101" 3
  = segment BSE_PRIMARY_URL "20240101" (Z.to_nat 3)
  ∧ (Z.to_nat 3
     ≤ length (_gather_for_date (u_always [JObj row_primary]) str_none
                 "20240101" 3))%nat.
Proof.
  apply (full_pagination_when_rich (u_always [JObj row_primary]) str_none
           "20240101" 3).
  - intros h _. vm_compute. reflexivity.
  - lia.
Defined.

Lemma fails_raise o : fails o = true → read_response o = Raise.
Proof.
  destruct o as [|c j t]; [reflexivity|]. cbn.
  destruct ((400 <=? c) && (c <? 600)); [reflexivity|].
  destruct j, t; cbn; congruence.
Qed.

(** X13. When every request fails (an exception of [session.get], a 4xx or
    5xx status whatever the body, a body that is not JSON), one request goes
    to each endpoint and no row is returned. *)
Theorem failing_upstream_two_requests u str_of d limit :
  (∀ h, fails (u h) = true) →
  gather_trace u str_of d limit
  = [page_request BSE_PRIMARY_URL d 1; page_request BSE_FALLBACK_URL d 1]
  ∧ _gather_for_date u str_of d limit = [].
Proof.
  intros Hfail. unfold gather_trace, _gather_for_date.
  rewrite gather_state_unfold. cbv zeta.
  rewrite (try_endpoint_probe_fails u str_of BSE_PRIMARY_URL d limit
             (mkstate [] [])) by apply fails_raise, Hfail.
  cbn [fst snd].
  rewrite (try_endpoint_probe_fails u str_of BSE_FALLBACK_URL d limit)
    by apply fails_raise, Hfail.
  split; reflexivity.
Qed.

Lemma failing_upstream_two_requests_witness :
  gather_trace u_http_503 str_none "20240101" 50
  = [page_request BSE_PRIMARY_URL "20240101" 1;
     page_request BSE_FALLBACK_URL "20240101" 1]
  ∧ _gather_for_date u_http_503 str_none "20240101" 50 = [].
Proof.
  apply (failing_upstream_two_requests u_http_503 str_none "20240101" 50).
  intros h. reflexivity.
Defined.

Lemma fmt_bse_date_parse_ymd L s d :
  parse_ymd s = Some d → 1000 ≤ year d →
  _fmt_bse_date L d
  = substring 0 4 s +:+ substring 5 2 s +:+ substring 8 2 s.
Proof.
  intros H Hyear.
  destruct (parse_ymd_inv s d H)
    as (y1 & y2 & y3 & y4 & m1 & m2 & d1 & d2 & -> & Hy & Hm & Hd & Hr).
  unfold _fmt_bse_date.
  rewrite lib_strftime_Y_padded by lia. by rewrite Hy, Hm, Hd.
Qed.

(** X14. For a [date] parameter [YYYY-MM-DD] of year 1000 or later, every
    request sent upstream carries the digits [YYYYMMDD] of that date as
    [strPrevDate] and as [strToDate].  (Below year 1000 [strftime] does not
    pad the year on every platform.) *)
Theorem requested_date_sent_upstream L u str_of now fields s d r :
  first_value fields "date" = Some s →
  parse_ymd s = Some d →
  1000 ≤ year d →
  r ∈ (do_GET L u str_of now (Query fields)).2 →
  req_params r !! "strPrevDate"
  = Some (JStr (substring 0 4 s +:+ substring 5 2 s +:+ substring 8 2 s))
  ∧ req_params r !! "strToDate" = req_params r !! "strPrevDate".
Proof.
  intros Hs Hd Hyear Hr.
  rewrite (do_GET_resolved L u str_of now fields d) in Hr.
  2:{ left. exists s. rewrite qs_first_parse_qs.
      split; [exact Hs | by apply lib_fromisoformat_ymd]. }
  cbn [snd] in Hr.
  apply gather_trace_requests in Hr as (e & p & _ & _ & ->).
  rewrite (fmt_bse_date_parse_ymd _ _ _ Hd Hyear).
  cbn [req_params page_request]. unfold page_payload.
  rewrite !lookup_insert_ne by discriminate. split; reflexivity.
Qed.

Lemma requested_date_sent_upstream_witness :
  req_params (page_request BSE_PRIMARY_URL "20240229" 1) !! "strPrevDate"
  = Some (JStr (substring 0 4 "2024-02-29" +:+ substring 5 2 "2024-02-29"
                +:+ substring 8 2 "2024-02-29"))
  ∧ req_params (page_request BSE_PRIMARY_URL "20240229" 1) !! "strToDate"
    = req_params (page_request BSE_PRIMARY_URL "20240229" 1)
        !! "strPrevDate".
Proof.
  apply (requested_date_sent_upstream sample_library u_down str_none noon
           [("date", "2024-02-29")] "2024-02-29" (mkdate 2024 2 29)).
  - vm_compute. reflexivity.
  - reflexivity.
  - cbn. lia.
  - vm_compute. apply list_elem_of_here.
Defined.

(** X15. [do_GET] reads the first value of [date] that is not empty and
    the first value of [limit_pages] that is not empty, and nothing else of
    the query. *)
Theorem do_GET_reads_two_parameters L u str_of now
    (fields fields' : list (string * string)) :
  first_value fields "date" = first_value fields' "date" →
  first_value fields "limit_pages" = first_value fields' "limit_pages" →
  do_GET L u str_of now (Query fields)
  = do_GET L u str_of now (Query fields').
Proof.
  rewrite <- !qs_first_parse_qs. intros Hd Hl.
  unfold do_GET, try_do_GET, serve, page_limit_of.
  by rewrite Hd, Hl.
Qed.

Lemma do_GET_reads_two_parameters_witness :
  do_GET sample_library u_empty str_none noon
    (Query [("date", "2024-01-01"); ("date", "2024-01-02")])
  = do_GET sample_library u_empty str_none noon
      (Query [("verbose", "1"); ("date", ""); ("date", "2024-01-01")]).
Proof.
  apply (do_GET_reads_two_parameters sample_library u_empty str_none noon).
  - vm_compute. reflexivity.
  - vm_compute. reflexivity.
Defined.

(** X16. With a page limit of zero or less, [_gather_for_date] sends the
    two probes only and returns no row, whatever the provider answers. *)
Theorem gather_nonpositive_limit u str_of d limit :
  limit ≤ 0 →
  _gather_for_date u str_of d limit = []
  ∧ gather_trace u str_of d limit
    = [page_request BSE_PRIMARY_URL d 1; page_request BSE_FALLBACK_URL d 1].
Proof.
  intros Hlimit. unfold _gather_for_date, gather_trace.
  rewrite gather_state_unfold. cbv zeta.
  assert (Hturn : ∀ e st,
            rows st = [] →
            try_endpoint u str_of e d limit st
            = (Ok false, mkstate [] (trace st ++ [page_request e d 1]))).
  { intros e st Hrows. rewrite (try_endpoint_unfold u str_of e d limit st).
    cbv zeta. rewrite seqZ_nil by exact Hlimit. rewrite Hrows.
    destruct (read_response _); reflexivity. }
  rewrite (Hturn BSE_PRIMARY_URL (mkstate [] []) eq_refl).
  cbn [fst snd trace rows app].
  rewrite (Hturn BSE_FALLBACK_URL
             (mkstate [] [page_request BSE_PRIMARY_URL d 1]) eq_refl).
  split; reflexivity.
Qed.

Lemma gather_nonpositive_limit_witness :
  _gather_for_date (u_always [JObj row_primary]) str_none "20240101" 0 = []
  ∧ gather_trace (u_always [JObj row_primary]) str_none "20240101" 0
    = [page_request BSE_PRIMARY_URL "20240101" 1;
       page_request BSE_FALLBACK_URL "20240101" 1].
Proof.
  apply (gather_nonpositive_limit (u_always [JObj row_primary]) str_none
           "20240101" 0).
  lia.
Defined.

(** ** The calendar and [_iso_today_india] *)

Lemma all_below_spec n f k :
  all_below n f = true → (k < n)%nat → f k = true.
Proof.
  induction n as [|n IH]; intros H Hk; [lia|].
  cbn in H. apply andb_true_iff in H as [Hn H].
  destruct (decide (k = n)) as [->|Hne]; [exact Hn|]. apply IH; [exact H|lia].
Qed.

Lemma year_days_checked :
  all_below 365 (λ k, year_day_ok true (Z.of_nat k)
                      && year_day_ok false (Z.of_nat k)) = true.
Proof. vm_compute. reflexivity. Qed.

Lemma year_day_ok_all leapyear k :
  0 ≤ k < 365 → year_day_ok leapyear k = true.
Proof.
  intros Hk.
  pose proof (all_below_spec _ _ (Z.to_nat k) year_days_checked) as H.
  cbv beta in H. rewrite Z2Nat.id in H by lia.
  apply andb_true_iff in H as [Ht Hf]; [|lia].
  by destruct leapyear.
Qed.

Lemma ord2ymd_unfold n0 :
  let n := n0 - 1 in
  let a := n / 146097 in
  let r1 := n mod 146097 in
  let b := r1 / 36524 in
  let r2 := r1 mod 36524 in
  let c := r2 / 1461 in
  let r3 := r2 mod 1461 in
  let e := r3 / 365 in
  let r4 := r3 mod 365 in
  let y := a * 400 + 1 + b * 100 + c * 4 + e in
  _ord2ymd n0
  = if (e =? 4) || (b =? 4) then mkdate (y - 1) 12 31
    else
      let leapyear := (e =? 3) && (negb (c =? 24) || (b =? 3)) in
      mkdate y (month_day r4 leapyear).1 (month_day r4 leapyear).2.
Proof.
  unfold _ord2ymd, month_day, _DI400Y, _DI100Y, _DI4Y. cbv zeta.
  destruct (_ || _); [reflexivity|].
  destruct (_ <? _); reflexivity.
Qed.

Lemma days_before_year_digits a b c e :
  0 ≤ b ≤ 3 → 0 ≤ c ≤ 24 → 0 ≤ e ≤ 3 →
  _days_before_year (a * 400 + 1 + b * 100 + c * 4 + e)
  = 146097 * a + 36524 * b + 1461 * c + 365 * e.
Proof.
  intros Hb Hc He. unfold _days_before_year. cbv zeta.
  Z.div_mod_to_equations. lia.
Qed.

Lemma is_leap_digits a b c e :
  0 ≤ b ≤ 3 → 0 ≤ c ≤ 24 → 0 ≤ e ≤ 3 →
  _is_leap (a * 400 + 1 + b * 100 + c * 4 + e)
  = (e =? 3) && (negb (c =? 24) || (b =? 3)).
Proof.
  intros Hb Hc He. unfold _is_leap.
  set (y := a * 400 + 1 + b * 100 + c * 4 + e).
  assert (H4 : y mod 4 = (e + 1) mod 4)
    by (subst y; Z.div_mod_to_equations; lia).
  assert (H100 : y mod 100 = (c * 4 + e + 1) mod 100)
    by (subst y; Z.div_mod_to_equations; lia).
  assert (H400 : y mod 400 = (b * 100 + c * 4 + e + 1) mod 400)
    by (subst y; Z.div_mod_to_equations; lia).
  rewrite H4, H100, H400.
  destruct (Z.eqb_spec e 3) as [->|Hne3].
  - destruct (Z.eqb_spec c 24) as [->|Hc24].
    + destruct (Z.eqb_spec b 3) as [->|Hb3]; [reflexivity|].
      cbn [negb orb andb].
      replace ((b * 100 + 24 * 4 + 3 + 1) mod 400 =? 0) with false;
        [reflexivity|].
      symmetry. apply Z.eqb_neq. Z.div_mod_to_equations. lia.
    + cbn [negb orb andb].
      replace ((c * 4 + 3 + 1) mod 100 =? 0) with false; [reflexivity|].
      symmetry. apply Z.eqb_neq. Z.div_mod_to_equations. lia.
  - replace ((e + 1) mod 4 =? 0) with false; [reflexivity|].
    symmetry. apply Z.eqb_neq. Z.div_mod_to_equations. lia.
Qed.

Ltac digits n a b c e r4 :=
  let r1 := fresh "r1" in
  let r2 := fresh "r2" in
  let r3 := fresh "r3" in
  pose proof (Z.div_mod (n - 1) 146097 ltac:(lia));
  pose proof (Z.mod_pos_bound (n - 1) 146097 ltac:(lia));
  set (a := (n - 1) / 146097) in *;
  set (r1 := (n - 1) mod 146097) in *;
  pose proof (Z.div_mod r1 36524 ltac:(lia));
  pose proof (Z.mod_pos_bound r1 36524 ltac:(lia));
  set (b := r1 / 36524) in *;
  set (r2 := r1 mod 36524) in *;
  pose proof (Z.div_mod r2 1461 ltac:(lia));
  pose proof (Z.mod_pos_bound r2 1461 ltac:(lia));
  set (c := r2 / 1461) in *;
  set (r3 := r2 mod 1461) in *;
  pose proof (Z.div_mod r3 365 ltac:(lia));
  pose proof (Z.mod_pos_bound r3 365 ltac:(lia));
  set (e := r3 / 365) in *;
  set (r4 := r3 mod 365) in *;
  clearbody a r1 b r2 c r3 e r4.

(** [_ord2ymd] gives a date of the calendar whose ordinal is the number it
    was given. *)
Lemma ord2ymd_spec n :
  1 ≤ n →
  date_ordinal (_ord2ymd n) = n
  ∧ 1 ≤ year (_ord2ymd n)
  ∧ 1 ≤ month (_ord2ymd n) ≤ 12
  ∧ 1 ≤ day (_ord2ymd n)
      ≤ _days_in_month (year (_ord2ymd n)) (month (_ord2ymd n)).
Proof.
  intros Hn. rewrite ord2ymd_unfold. cbv zeta.
  digits n a b c e r4.
  assert (0 ≤ a ∧ 0 ≤ b ≤ 4 ∧ 0 ≤ c ≤ 24 ∧ 0 ≤ e ≤ 4) as (Ha & Hb & Hc & He)
    by lia.
  destruct ((e =? 4) || (b =? 4)) eqn:Hspecial.
  - unfold date_ordinal, _ymd2ord, _days_before_month, _days_in_month.
    cbn [year month day].
    assert (∃ b' c', 0 ≤ b' ≤ 3 ∧ 0 ≤ c' ≤ 24
                     ∧ (c' = 24 → b' = 3)
                     ∧ a * 400 + 1 + b * 100 + c * 4 + e - 1
                       = a * 400 + 1 + b' * 100 + c' * 4 + 3
                     ∧ n = 146097 * a + 36524 * b' + 1461 * c' + 1461)
      as (b' & c' & Hb' & Hc' & Hcent & -> & ->).
    { apply orb_true_iff in Hspecial as [He4|Hb4].
      - apply Z.eqb_eq in He4. exists b, c. lia.
      - apply Z.eqb_eq in Hb4. exists 3, 24. lia. }
    rewrite days_before_year_digits, is_leap_digits by lia.
    replace ((3 =? 3) && (negb (c' =? 24) || (b' =? 3))) with true.
    + cbn. lia.
    + symmetry. cbn [Z.eqb Pos.eqb andb].
      destruct (Z.eqb_spec c' 24) as [E|_]; [|reflexivity].
      rewrite (Hcent E). reflexivity.
  - apply orb_false_iff in Hspecial as [He4 Hb4].
    apply Z.eqb_neq in He4, Hb4.
    set (leapyear := (e =? 3) && (negb (c =? 24) || (b =? 3))).
    pose proof (year_day_ok_all leapyear r4 ltac:(lia)) as Hok.
    unfold year_day_ok in Hok. cbv zeta in Hok.
    repeat (apply andb_true_iff in Hok as [Hok ?Hk]).
    unfold date_ordinal, _ymd2ord, _days_before_month, _days_in_month.
    cbn [year month day].
    rewrite days_before_year_digits, is_leap_digits by lia.
    fold leapyear. lia.
Qed.

Lemma days_before_year_mono y1 y2 :
  y1 ≤ y2 → _days_before_year y1 ≤ _days_before_year y2.
Proof.
  intros H. unfold _days_before_year. cbv zeta.
  Z.div_mod_to_equations. lia.
Qed.

Lemma days_before_year_succ y :
  _days_before_year (y + 1)
  = _days_before_year y + 365 + (if _is_leap y then 1 else 0).
Proof.
  unfold _days_before_year, _is_leap. cbv zeta.
  replace (y + 1 - 1) with y by lia.
  destruct (Z.eqb_spec (y mod 4) 0) as [H4|H4];
    destruct (Z.eqb_spec (y mod 100) 0) as [H100|H100];
    destruct (Z.eqb_spec (y mod 400) 0) as [H400|H400];
    cbn [negb andb orb]; Z.div_mod_to_equations; lia.
Qed.

Lemma month_cases m : 1 ≤ m ≤ 12 →
  m = 1 ∨ m = 2 ∨ m = 3 ∨ m = 4 ∨ m = 5 ∨ m = 6
  ∨ m = 7 ∨ m = 8 ∨ m = 9 ∨ m = 10 ∨ m = 11 ∨ m = 12.
Proof. lia. Qed.

Lemma day_of_year_bounds y m d :
  valid_month_day y m d →
  1 ≤ _days_before_month y m + d ≤ 365 + (if _is_leap y then 1 else 0).
Proof.
  intros [Hm Hd]. unfold _days_before_month, _days_in_month in *.
  destruct (_is_leap y);
    destruct (month_cases m Hm) as [->|[->|[->|[->|[->|[->|[->|[->|[->|[->|[->| ->]]]]]]]]]]];
    cbn in *; lia.
Qed.

Lemma day_of_year_inj y m1 d1 m2 d2 :
  valid_month_day y m1 d1 → valid_month_day y m2 d2 →
  _days_before_month y m1 + d1 = _days_before_month y m2 + d2 →
  m1 = m2 ∧ d1 = d2.
Proof.
  intros [Hm1 Hd1] [Hm2 Hd2]. unfold _days_before_month, _days_in_month in *.
  destruct (_is_leap y);
    destruct (month_cases m1 Hm1) as [->|[->|[->|[->|[->|[->|[->|[->|[->|[->|[->| ->]]]]]]]]]]];
    destruct (month_cases m2 Hm2) as [->|[->|[->|[->|[->|[->|[->|[->|[->|[->|[->| ->]]]]]]]]]]];
    cbn in *; lia.
Qed.

(** Two dates of the calendar with the same ordinal are the same date. *)
Lemma date_ordinal_inj y1 m1 d1 y2 m2 d2 :
  valid_month_day y1 m1 d1 → valid_month_day y2 m2 d2 →
  _ymd2ord y1 m1 d1 = _ymd2ord y2 m2 d2 →
  y1 = y2 ∧ m1 = m2 ∧ d1 = d2.
Proof.
  intros H1 H2 Heq. unfold _ymd2ord in Heq.
  pose proof (day_of_year_bounds _ _ _ H1) as B1.
  pose proof (day_of_year_bounds _ _ _ H2) as B2.
  assert (y1 = y2) as <-.
  { destruct (Z.lt_trichotomy y1 y2) as [Hlt|[Heq'|Hgt]]; [|exact Heq'|].
    - pose proof (days_before_year_mono (y1 + 1) y2 ltac:(lia)).
      pose proof (days_before_year_succ y1). lia.
    - pose proof (days_before_year_mono (y2 + 1) y1 ltac:(lia)).
      pose proof (days_before_year_succ y2). lia. }
  split; [reflexivity|].
  apply (day_of_year_inj y1); [assumption..|lia].
Qed.

Lemma ord2ymd_ymd2ord y m d :
  1 ≤ y → valid_month_day y m d →
  _ord2ymd (_ymd2ord y m d) = mkdate y m d.
Proof.
  intros Hy Hv.
  pose proof (day_of_year_bounds _ _ _ Hv) as B.
  assert (Hn : 1 ≤ _ymd2ord y m d).
  { unfold _ymd2ord. pose proof (days_before_year_mono 1 y Hy) as Hm.
    change (_days_before_year 1) with 0 in Hm. lia. }
  destruct (ord2ymd_spec _ Hn) as (Hord & _ & Hmo & Hda).
  destruct (_ord2ymd (_ymd2ord y m d)) as [y' m' d'] eqn:E.
  cbn [year month day] in *. unfold date_ordinal in Hord.
  cbn [year month day] in Hord.
  destruct (date_ordinal_inj y' m' d' y m d) as (-> & -> & ->);
    [by split | exact Hv | exact Hord | reflexivity].
Qed.

Lemma ist_days now :
  0 ≤ dt_hour now < 24 → 0 ≤ dt_minute now < 60 → 0 ≤ dt_second now < 60 →
  0 ≤ dt_microsecond now < 1000000 →
  td_days (timedelta_add
             (new_timedelta (toordinal now) (dt_hour now) (dt_minute now)
                            (dt_second now) (dt_microsecond now))
             (new_timedelta 0 5 30 0 0))
  = toordinal now + (if seconds_of_day now <? 66600 then 0 else 1).
Proof.
  intros Hh Hm Hs Hus. unfold timedelta_add, new_timedelta, seconds_of_day.
  cbv zeta. cbn [td_days td_seconds td_microseconds].
  generalize (toordinal now). intros ord.
  destruct (Z.ltb_spec (dt_hour now * 3600 + dt_minute now * 60
                        + dt_second now) 66600);
    Z.div_mod_to_equations; lia.
Qed.

Lemma iso_today_india_days now :
  0 ≤ dt_hour now < 24 → 0 ≤ dt_minute now < 60 → 0 ≤ dt_second now < 60 →
  0 ≤ dt_microsecond now < 1000000 →
  _iso_today_india now
  = let days := toordinal now
                + (if seconds_of_day now <? 66600 then 0 else 1) in
    if (0 <? days) && (days <=? _MAXORDINAL) then Some (_ord2ymd days)
    else None.
Proof.
  intros Hh Hm Hs Hus. unfold _iso_today_india, datetime_add. cbv zeta.
  rewrite (ist_days now Hh Hm Hs Hus).
  destruct (_ && _); [|reflexivity]. cbn [mbind option_bind].
  unfold date_of. cbn [dt_year dt_month dt_day].
  by destruct (_ord2ymd _).
Qed.

Lemma toordinal_range now :
  valid_datetime now → 1 ≤ toordinal now ≤ _MAXORDINAL.
Proof.
  intros ((Hy1 & Hy2) & Hv & _). unfold toordinal, _ymd2ord.
  pose proof (day_of_year_bounds _ _ _ Hv) as B.
  pose proof (days_before_year_mono 1 _ Hy1) as L.
  pose proof (days_before_year_mono _ 9999 Hy2) as U.
  change (_days_before_year 1) with 0 in L.
  change (_days_before_year 9999) with 3651694 in U.
  unfold _MAXORDINAL.
  destruct (_is_leap (dt_year now)) eqn:Hleap.
  - assert (dt_year now ≠ 9999) by (intros E; rewrite E in Hleap; discriminate).
    pose proof (days_before_year_mono (dt_year now) 9998 ltac:(lia)) as U'.
    change (_days_before_year 9998) with 3651329 in U'. lia.
  - lia.
Qed.

Lemma new_date_valid y m d :
  1 ≤ y ≤ 9999 → valid_month_day y m d →
  new_date y m d = Some (mkdate y m d).
Proof.
  intros Hy [Hm Hd]. unfold new_date, MINYEAR, MAXYEAR.
  replace (_ && _) with true; [reflexivity|].
  symmetry. repeat (apply andb_true_iff; split); lia.
Qed.

Lemma year_of_ordinal y m d :
  valid_month_day y m d → _ymd2ord y m d ≤ _MAXORDINAL → y ≤ 9999.
Proof.
  intros Hv Hord. unfold _ymd2ord, _MAXORDINAL in Hord.
  pose proof (day_of_year_bounds _ _ _ Hv) as B.
  destruct (Z.le_gt_cases y 9999) as [H|H]; [exact H|].
  pose proof (days_before_year_mono 10000 y ltac:(lia)) as L.
  change (_days_before_year 10000) with 3652059 in L. lia.
Qed.

(** X17. For an instant with fields in range, [_iso_today_india] returns
    the UTC date before 18:30:00 UTC and the date of the next day from
    18:30:00 on; on the last day of year 9999 from 18:30:00 on it
    raises. *)
Theorem iso_today_india_same_or_next now :
  valid_datetime now →
  (seconds_of_day now < 66600 → _iso_today_india now = Some (date_of now))
  ∧ (66600 ≤ seconds_of_day now → toordinal now < _MAXORDINAL →
     ∃ d, _iso_today_india now = Some d
          ∧ new_date (year d) (month d) (day d) = Some d
          ∧ date_ordinal d = toordinal now + 1)
  ∧ (66600 ≤ seconds_of_day now → toordinal now = _MAXORDINAL →
     _iso_today_india now = None).
Proof.
  intros Hvalid.
  pose proof (toordinal_range now Hvalid) as Hord.
  destruct Hvalid as (Hy & Hv & Hh & Hm & Hs & Hus).
  rewrite (iso_today_india_days now Hh Hm Hs Hus). cbv zeta.
  split; [|split].
  - intros Hearly.
    destruct (Z.ltb_spec (seconds_of_day now) 66600) as [_|?]; [|lia].
    rewrite Z.add_0_r.
    replace ((0 <? toordinal now) && (toordinal now <=? _MAXORDINAL))
      with true by (symmetry; apply andb_true_iff; split; lia).
    unfold toordinal. rewrite ord2ymd_ymd2ord by (lia || exact Hv).
    reflexivity.
  - intros Hlate Hroom.
    destruct (Z.ltb_spec (seconds_of_day now) 66600) as [?|_]; [lia|].
    replace ((0 <? toordinal now + 1)
             && (toordinal now + 1 <=? _MAXORDINAL))
      with true by (symmetry; apply andb_true_iff; split; lia).
    destruct (ord2ymd_spec (toordinal now + 1) ltac:(lia))
      as (Hn & Hy' & Hmo & Hda).
    exists (_ord2ymd (toordinal now + 1)).
    split; [reflexivity|]. split; [|exact Hn].
    destruct (_ord2ymd (toordinal now + 1)) as [y' m' d'].
    cbn [year month day] in *. apply new_date_valid; [|by split].
    split; [exact Hy'|].
    apply (year_of_ordinal y' m' d'); [by split|].
    unfold date_ordinal in Hn. cbn [year month day] in Hn. lia.
  - intros Hlate Hmax.
    destruct (Z.ltb_spec (seconds_of_day now) 66600) as [?|_]; [lia|].
    rewrite Hmax. reflexivity.
Qed.

Lemma iso_today_india_same_or_next_witness :
  (seconds_of_day (mkdatetime 2024 2 28 18 30 0 0) < 66600 →
   _iso_today_india (mkdatetime 2024 2 28 18 30 0 0)
   = Some (date_of (mkdatetime 2024 2 28 18 30 0 0)))
  ∧ (66600 ≤ seconds_of_day (mkdatetime 2024 2 28 18 30 0 0) →
     toordinal (mkdatetime 2024 2 28 18 30 0 0) < _MAXORDINAL →
     ∃ d, _iso_today_india (mkdatetime 2024 2 28 18 30 0 0) = Some d
          ∧ new_date (year d) (month d) (day d) = Some d
          ∧ date_ordinal d = toordinal (mkdatetime 2024 2 28 18 30 0 0) + 1)
  ∧ (66600 ≤ seconds_of_day (mkdatetime 2024 2 28 18 30 0 0) →
     toordinal (mkdatetime 2024 2 28 18 30 0 0) = _MAXORDINAL →
     _iso_today_india (mkdatetime 2024 2 28 18 30 0 0) = None).
Proof.
  apply (iso_today_india_same_or_next (mkdatetime 2024 2 28 18 30 0 0)).
  repeat split; vm_compute; congruence.
Defined.

(** X18. With a clock before year 9999, [_iso_today_india] returns a date
    (no [OverflowError]), and a request without a [date] value is answered
    for that date. *)
Theorem no_overflow_before_year_9999 now :
  valid_datetime now → dt_year now < 9999 →
  ∃ d, _iso_today_india now = Some d
       ∧ ∀ L u str_of fields,
           first_value fields "date" = None →
           fetched_with L u str_of now (Query fields) d
             (page_limit_of L (parse_qs fields)).
Proof.
  intros Hvalid Hyear.
  pose proof (toordinal_range now Hvalid) as Hord.
  destruct Hvalid as (Hy & Hv & Hh & Hm & Hs & Hus).
  assert (Hroom : toordinal now + 1 ≤ _MAXORDINAL).
  { unfold toordinal, _ymd2ord.
    pose proof (day_of_year_bounds _ _ _ Hv) as B.
    pose proof (days_before_year_succ (dt_year now)) as S.
    pose proof (days_before_year_mono (dt_year now + 1) 9999 ltac:(lia))
      as U.
    change (_days_before_year 9999) with 3651694 in U.
    unfold _MAXORDINAL. lia. }
  assert (Hsome : ∃ d, _iso_today_india now = Some d).
  { rewrite (iso_today_india_days now Hh Hm Hs Hus). cbv zeta.
    replace (_ && _) with true; [eauto|].
    symmetry. apply andb_true_iff.
    destruct (seconds_of_day now <? 66600); split; lia. }
  destruct Hsome as (d & Hd). exists d. split; [exact Hd|].
  intros L u str_of fields Hnone. apply do_GET_resolved.
  right. by rewrite qs_first_parse_qs.
Qed.

Lemma no_overflow_before_year_9999_witness :
  ∃ d, _iso_today_india noon = Some d
       ∧ ∀ L u str_of fields,
           first_value fields "date" = None →
           fetched_with L u str_of noon (Query fields) d
             (page_limit_of L (parse_qs fields)).
Proof.
  apply (no_overflow_before_year_9999 noon).
  - repeat split; vm_compute; congruence.
  - vm_compute. reflexivity.
Defined.

(** ** The order of the rows *)

Lemma omap_objects (ds : list (gmap string json)) :
  omap (λ v, match v with JObj d => Some d | _ => None end) (JObj <$> ds)
  = ds.
Proof. induction ds as [|x ds IH]; [reflexivity|]. cbn. by rewrite IH. Qed.

Section Order.

Variable u : upstream.
Variable str_of : json → string.
Hypothesis Hwf : ∀ h, h ≠ [] → well_formed (u h) = true.

Lemma paginate_rows_in_order e d ps :
  ∀ st, ∃ k : nat,
    (k ≤ length ps)%nat
    ∧ trace (paginate u str_of e d ps st).2
      = trace st ++ (page_request e d <$> take k ps)
    ∧ rows (paginate u str_of e d ps st).2
      = rows st
        ++ (enrich str_of
              <$> concat ((λ j, table_rows u
                                  (trace st
                                   ++ (page_request e d <$> take j ps)))
                            <$> seq 1 k)).
Proof.
  induction ps as [|p ps IH]; intros st.
  - exists 0%nat. cbn. rewrite !app_nil_r. repeat split. lia.
  - rewrite paginate_unfold. cbv zeta. cbn [trace].
    pose proof (Hwf (trace st ++ [page_request e d p]) (snoc_not_nil _ _))
      as Hp.
    assert (Hrows1 : table_rows u (trace st ++ [page_request e d p])
                     = table_rows u (trace st ++ [page_request e d p]))
      by reflexivity.
    unfold table_rows at 2 in Hrows1. unfold served_table in Hrows1.
    unfold well_formed in Hp.
    destruct (read_response _) as [data|]; [|discriminate].
    destruct (page_table data) as [table|]; [|discriminate].
    destruct (truthy table) eqn:Ht.
    + destruct table; try (rewrite ?Ht in Hp; cbn in Ht, Hp; congruence).
      destruct (all_objects _ Hp) as (ds & ->).
      rewrite omap_objects in Hrows1.
      cbn [py_iter]. rewrite add_items_all_dicts. cbn [rows trace].
      destruct (IH (mkstate (rows st ++ (enrich str_of <$> ds))
                      (trace st ++ [page_request e d p])))
        as (k & Hk & Htr & Hrows).
      cbn [rows trace] in Htr, Hrows.
      exists (S k). split; [cbn [length]; lia|]. split.
      * rewrite Htr, <- app_assoc. reflexivity.
      * rewrite Hrows, <- app_assoc. f_equal.
        cbn [seq fmap list_fmap concat take]. rewrite take_0.
        cbn [fmap list_fmap]. rewrite Hrows1, fmap_app.
        f_equal. f_equal. f_equal.
        rewrite <- (fmap_S_seq 1 k), <- list_fmap_compose.
        apply list_fmap_ext. intros i j _. cbn.
        by rewrite <- app_assoc.
    + exists 1%nat. split; [cbn [length]; lia|]. split; [reflexivity|].
      cbn [seq fmap list_fmap concat take rows]. rewrite take_0.
      cbn [fmap list_fmap]. rewrite Hrows1.
      replace (match table with JArr items => _ | _ => [] end)
        with (@nil (gmap string json)).
      * by rewrite !app_nil_r.
      * destruct table as [| | | | |[|x l]|]; try reflexivity.
        discriminate Ht.
Qed.

Lemma try_endpoint_rows_in_order e d limit st :
  ∃ k : nat,
    trace (try_endpoint u str_of e d limit st).2 = trace st ++ segment e d k
    ∧ rows (try_endpoint u str_of e d limit st).2
      = rows st
        ++ (enrich str_of
              <$> concat ((λ j, table_rows u (trace st ++ segment e d j))
                            <$> seq 1 k)).
Proof.
  rewrite (try_endpoint_unfold u str_of e d limit st). cbv zeta.
  cbn [trace].
  pose proof (Hwf (trace st ++ [page_request e d 1]) (snoc_not_nil _ _))
    as Hprobe.
  unfold well_formed in Hprobe.
  destruct (read_response _) as [data|]; [|discriminate].
  destruct (paginate_rows_in_order e d (seqZ 1 limit)
              (mkstate (rows st) (trace st ++ [page_request e d 1])))
    as (k & Hk & Htr & Hrows).
  cbn [rows trace] in Htr, Hrows. rewrite length_seqZ in Hk.
  assert (Hseg : ∀ j, (j ≤ k)%nat →
            ((trace st ++ [page_request e d 1])
             ++ (page_request e d <$> take j (seqZ 1 limit))
             = trace st ++ segment e d j)%list).
  { intros j Hj. rewrite take_seqZ by lia. unfold segment.
    by rewrite <- app_assoc. }
  exists k.
  replace ((paginate u str_of e d (seqZ 1 limit) _).2)
    with ((paginate u str_of e d (seqZ 1 limit)
             (mkstate (rows st) (trace st ++ [page_request e d 1]))).2)
    in * by reflexivity.
  destruct (paginate u str_of e d (seqZ 1 limit) _) as [[[]|] st'];
    cbn [fst snd] in *.
  all: split; [rewrite Htr; by apply Hseg|].
  all: rewrite Hrows; f_equal; f_equal; f_equal.
  all: apply list_fmap_ext; intros i j Hj; cbn.
  all: apply lookup_seq in Hj as [-> Hi]; f_equal; apply Hseg; lia.
Qed.

End Order.

(** X20. When every response is well formed, the rows returned are the
    enriched rows of the tables served for pages 1, 2, ..., [k] of one
    endpoint, in page order and, within a page, in the order of the
    table. *)
Theorem rows_in_page_order u str_of d limit :
  (∀ h, h ≠ [] → well_formed (u h) = true) →
  ∃ (before : list request) (e : string) (k : nat),
    gather_trace u str_of d limit = before ++ segment e d k
    ∧ _gather_for_date u str_of d limit
      = enrich str_of
          <$> concat ((λ j, table_rows u (before ++ segment e d j))
                        <$> seq 1 k).
Proof.
  intros Hwf. unfold _gather_for_date, gather_trace.
  rewrite gather_state_unfold. cbv zeta.
  rewrite (try_endpoint_well_formed u str_of BSE_PRIMARY_URL d limit
             (mkstate [] []) Hwf).
  destruct (try_endpoint_rows_in_order u str_of Hwf BSE_PRIMARY_URL d limit
              (mkstate [] [])) as (k1 & Htr1 & Hrows1).
  cbn [rows trace app] in Htr1, Hrows1.
  set (t1 := try_endpoint u str_of BSE_PRIMARY_URL d limit (mkstate [] []))
    in *.
  destruct (rows t1.2) as [|x xs] eqn:Hr.
  - destruct (try_endpoint_rows_in_order u str_of Hwf BSE_FALLBACK_URL d
                limit t1.2) as (k2 & Htr2 & Hrows2).
    exists (segment BSE_PRIMARY_URL d k1), BSE_FALLBACK_URL, k2.
    rewrite Htr2, Hrows2, Hr, Htr1. split; reflexivity.
  - exists [], BSE_PRIMARY_URL, k1. rewrite Htr1, Hr. split; [reflexivity|].
    exact Hrows1.
Qed.

Lemma rows_in_page_order_witness :
  ∃ (before : list request) (e : string) (k : nat),
    gather_trace (u_page1 (JObj <$> [row_primary; row_fallback])) str_none
      "20240101" 5 = before ++ segment e "20240101" k
    ∧ _gather_for_date (u_page1 (JObj <$> [row_primary; row_fallback]))
        str_none "20240101" 5
      = enrich str_none
          <$> concat ((λ j, table_rows
                              (u_page1 (JObj <$> [row_primary; row_fallback]))
                              (before ++ segment e "20240101" j))
                        <$> seq 1 k).
Proof.
  apply (rows_in_page_order (u_page1 (JObj <$> [row_primary; row_fallback]))
           str_none "20240101" 5).
  apply u_page1_well_formed.
Defined.
